(* ===== verification/_CoqProject ===== *)
-Q . S2P
Prelude.v
PyStr.v
Codec.v
Filter.v
Runtime.v
Cells.v
Notebook.v
Kernel.v
Types.v
Stream.v
Script.v
