(* ===== verification/Prelude.v ===== *)
(** * A verification development for [src/notebooks/dbt_package_lister.py]

    ** The program

    [src/notebooks/dbt_package_lister.py] is a Snowflake notebook of six
    cells, 61 lines of Python, after a module docstring (lines 1-4):
    - Cell 1 (lines 6-12): [import sys], [import subprocess], prints
      "Installing dbt-snowflake...", runs [subprocess.check_call] on
      [sys.executable -m pip install dbt-snowflake==1.7.1 -q] and prints a
      success line;
    - Cell 2 (lines 14-16): [import dbt.version], prints
      [f"dbt version: {dbt.version.__version__}"];
    - Cell 3 (lines 18-27): prints a header, runs [subprocess.run] on
      [sys.executable -m pip list] with [capture_output=True, text=True]
      (no [check]), splits the captured output on ['\n'] and prints
      [f"  • {line}"] for each line whose [lower()] contains ['dbt'];
    - Cells 4-6 (lines 29-61): print a packages.yml snippet, a metadata
      block framed by ["=" * 60], seven command descriptions with a bullet,
      and a completion line.

    The cells interact only through the Python runtime: the notebook's
    global namespace (Cell 3 reads [sys] and [subprocess], bound by Cell 1),
    [sys.modules] (which [import dbt.version] consults first), the host's
    package index (changed by [pip install], read by [import] and
    [pip list]) and standard output.

    ** Files, in dependency order

    - [Prelude] (this file): Python [str] values as lists of code points,
      [lit] for the source's ASCII literals, the code points of its six
      non-ASCII characters, the rewrite database [pyrw] (filled by
      [Runtime]), the tactic [destruct_cp_eqb], the list lemmas the components share.
    - [PyStr]: the [str] operations the notebook uses, a [Module] each:
      [Contains] ([in], line 26), [Split] ([str.split] on one character,
      CPython's [split_char] loop), [Lower] ([str.lower], line
      26, through the [CaseMapping] interface: per code point with its
      neighbours, as CPython's [lower_ucs4] with its final-sigma rule; the
      laws are the Unicode facts used) and [Repeat] ([str * int], line 40).
    - [Codec]: CPython's UTF-8 codec ([Utf8]: [encode_cp] as
      [utf8_encoder], [decode] as [utf8_decode], strict errors as [None])
      and the universal newlines of [text=True] ([Newlines]:
      [translate_newlines], [text_decode]), on [str.replace] ([PyStr]).
    - [Filter]: the condition and the printed lines of Cell 3's loop as
      pure functions of the captured output ([is_dbt_line], [dbt_lines],
      [bullet_line]).
    - [Runtime]: values, exceptions, the [Host] interface (what [subprocess]
      and [import] ask of the machine: [sys.executable], running a child to
      completion and collecting the bytes it wrote, the [__version__]
      [import dbt.version] finds), the state
      (host, globals as [gmap string pyval], [sys.modules], printed text,
      trace of host requests, and the log [st_io] of what reaches standard
      output: each [sys.stdout.write] and the output of a child that
      inherited the descriptor), the state-and-exception monad [M] with its
      notation, the primitives ([print], global load/store, [import],
      the attribute lookups [sys.executable] and [subprocess.run] /
      [subprocess.check_call] on what the names hold, [check_call],
      [subprocess.run] decoding the captured bytes, [for])
      and their equations; the
      tactic [py_step] runs a program one statement at a time.
    - [Cells]: the literal texts and the six cells statement by statement
      in Python's evaluation order ([cell1] ... [cell6]); a functional
      specification of each cell on every branch ([cell1_spec],
      [cell2_cached]/[_found]/[_missing], [cell3_spec],
      [cell3_no_subprocess], [cell4_spec] ... [cell6_spec]).
    - [Notebook]: [run_notebook], the cells top to bottom halting at the
      first exception (the spec's script); [Reporter], the contract of spec
      section 4.1 as a function of the host's three answers; the demo host
      of the witnesses.
    - [Kernel]: cells run in any order as the step relation [history] on
      kernel states (an exception ends a cell, not the kernel);
      footprints of the programs on the globals and on [sys.modules],
      composed through [bind]; invariants by rule induction.
    - [Stream]: [sys.stdout] as a UTF-8 encoder and a byte buffer in
      front of descriptor 1
      (unbuffered, line buffered as on a terminal, block buffered as on a
      pipe or a file), the [pip install] child writing on the descriptor
      directly, the flush at interpreter exit; [at_exit] replays a run's
      [st_io] log and gives the bytes the descriptor received.
    - [Types] (Module [Typing]): the types of the names the notebook binds
      ([global_type]: [sys], [subprocess], [dbt] modules, [result] a
      [CompletedProcess], [line], [packages_content], [cmd] a [str],
      [commands] a list of [str]), well-formed kernel states [wf], and the
      typing judgement [wt] of a program (preserves [wf], raises no
      [AttributeError], establishes its postcondition), proved for every
      primitive and, by the tactic [typed], for every cell.
    - [Script] (Module [Script]): the file run as a script,
      [python dbt_package_lister.py]: the docstring bound to [__doc__]
      before the body ([run_module]), and the process outcome
      ([run_script]: exit status 1 with the traceback of the uncaught
      exception, or 0, and the bytes of descriptor 1 after the flush at
      exit, through [Stream.at_exit]).  Its [Frame] section is a frame
      judgement [frames k m] ([m] neither reads nor writes the global
      [k]), proved for every primitive and, by the tactic [framed], for
      every cell, for each name [Typing.global_type] does not type other
      than [print].

    ** What the theorems show

    - Refinement: [run_notebook_refines_reporter]: for every answer of the
      host the run prints exactly the Reporter's lines and completes exactly
      when the Reporter does.
    - Errors and ordering: a failing install raises [CalledProcessError]
      and nothing else runs; a failing import raises [ModuleNotFoundError]
      before [pip list]; a [pip list] child that cannot start raises
      [OSError]; on success the host is asked install, import, list, in
      order, and [pip list]'s status is never read.
    - The filter: exact characterisation of the printed lines (a factor
      [dD][bB][tT] in a line of the output), independence from the Unicode
      case tables, the spec's example, order preservation, idempotence.
    - Text and bytes in Cell 3: [pip list] output that is not UTF-8
      raises [UnicodeDecodeError]; output written with Windows line ends
      makes Cell 3 print the same lines as with ["\n"], with no trailing
      ["\r"] ([cell3_crlf_output], through the codec's round trip and the
      universal newline translation of [text=True]).
    - The static blocks: state-independent output of Cells 4-6.
    - Standard output: on a terminal the descriptor receives the lines in
      program order with pip's output after "Installing
      dbt-snowflake..."; on a pipe or a file (block buffered, the run's
      bytes fitting in the 8192-byte buffer) pip's output comes first,
      because line 10's [print] is not flushed before [check_call].
    - The namespace a completed run leaves, loop variables included.
    - The kernel: [sys]/[subprocess] bound exactly when Cell 1 has run, so
      Cell 3 before Cell 1 raises [NameError]; the [dbt.version] entry of
      [sys.modules] never changes, so Cell 2 reprints the first version.
    - Types: every kernel state reached from a fresh kernel is well typed
      (preservation by rule induction on [history]), so no cell raises
      [AttributeError] whatever cells ran before; with [sys] or
      [subprocess] rebound to a [str] Cell 3 does raise it (on
      [sys.executable], or on [subprocess.run] before [pip list] is
      started), so the invariant is needed.
    - The script ([Script]): the process exits 1 with
      [CalledProcessError] or [ModuleNotFoundError] when install or import
      fails, and 0 otherwise whatever [pip list]'s status; a user's own
      variable in the kernel (any name the notebook does not bind, but
      [print]) is neither read nor changed by any cell, after any
      sequence of cells.

    ** Choices and limits

    - A [str] is its code points ([list N]); Python integers are [Z].
    - No fuel is needed: every definition is structurally recursive (the
      loops run over finite lists, the string functions recurse on the
      string).
    - The host is an interface: the theorems hold for every package index
      and every behaviour of the child processes; witnesses use the demo
      host of [Notebook.Demo] and the [ascii_case_mapping] instance.
    - The locale encoding is UTF-8 (as in UTF-8 mode and the usual Linux
      locales); [print] of a string with a surrogate fails in [Stream]'s
      replay, not as an exception of the run; the theorems show the
      notebook never prints one when the version string has none.
    - Not modelled: pip itself and the network; the Unicode case tables
      (only the laws of [CaseMapping]); the exact point where a full block
      buffer is written (the whole buffer here, what exceeds it in
      CPython: the theorems only use runs that fit in the buffer);
      [stderr] of the [pip install] child (not captured, not on stdout);
      how [subprocess.run] reads the two pipes ([Popen._communicate], a
      library routine of CPython: [Runtime.subprocess_run] takes the
      bytes the child wrote on each in one step); a global named [print]
      (Python looks [print] up in the globals before the builtins; the
      model's [print] is the builtin, and the frame theorem excludes
      that name); the builtins fallback of a name lookup (no cell reads
      a builtin other than [print]); the text of the traceback (only the
      exception it reports: its frames and formatting are the
      interpreter's); [__name__], [__builtins__] and the other names the
      interpreter binds before the module runs (they are part of the
      globals the run starts with, which the notebook never reads); in
      the notebook kernel the docstring is an expression statement whose
      value is discarded, so only the script binds [__doc__].
*)

From Stdlib Require Import String Ascii NArith ZArith Lia.
From stdpp Require Import base list.

(** ** Python [str] values *)

Declare Scope py_scope.
Delimit Scope py_scope with py.

(** A [str] is a sequence of code points. *)
Abbreviation pystr := (list N).

(** A [bytes] value: its bytes, each below 256. *)
Abbreviation pybytes := (list N).

(** An ASCII literal of the source as a [str]. *)
Definition lit (s : string) : list N := map N_of_ascii (list_ascii_of_string s).
Arguments lit s%_string.

(** The code points the literals of the notebook use. *)
Definition NL : N := 10.
Definition WHITE_HEAVY_CHECK_MARK : N := 0x2705.
Definition PACKAGE : N := 0x1F4E6.
Definition BULLET : N := 0x2022.
Definition CLIPBOARD : N := 0x1F4CB.
Definition LEFT_MAGNIFYING_GLASS : N := 0x1F50D.
Definition PERSONAL_COMPUTER : N := 0x1F4BB.

(** ** Automation *)

(** The equations of the runtime's statements, for [autorewrite]. *)
Create Rewrite HintDb pyrw.

(** Split the boolean tests on code points that the models compute. *)
Ltac destruct_cp_eqb :=
  repeat match goal with
  | |- context [N.eqb ?a ?b] => destruct (N.eqb_spec a b); subst
  | H : context [N.eqb ?a ?b] |- _ => destruct (N.eqb_spec a b); subst
  end.

(** Linear arithmetic on [N] with division and remainder by constants,
    as the byte arithmetic of the codecs needs. *)
Ltac nlia := zify; Z.div_mod_to_equations; Z.quot_rem_to_equations; lia.

(** ** Generic lemmas on lists *)

Section ListFacts.
Context {A : Type}.

Lemma filter_filter_same (p : A -> bool) (l : list A) :
  List.filter p (List.filter p l) = List.filter p l.
Proof.
  induction l as [|x l IH]; [done|]. simpl.
  destruct (p x) eqn:Hp; simpl; [rewrite Hp|]; by rewrite IH.
Qed.

Lemma filter_sublist_of (p : A -> bool) (l : list A) :
  sublist (List.filter p l) l.
Proof.
  induction l as [|x l IH]; simpl; [constructor|].
  destruct (p x); by constructor.
Qed.

Lemma Forall_List_filter (P : A -> Prop) (p : A -> bool) (l : list A) :
  Forall P l -> Forall P (List.filter p l).
Proof.
  rewrite !List.Forall_forall. intros HP x Hx%filter_In. apply HP, Hx.
Qed.

(** A factor of a mapped list is the image of a factor. *)
Lemma map_factor_iff {B} (f : A -> B) (s : list A) (n : list B) :
  (exists a b, map f s = a ++ n ++ b) <->
  (exists a w z, s = a ++ w ++ z /\ map f w = n).
Proof.
  split.
  - intros (a & z & Hs).
    apply map_eq_app in Hs as (a' & r & -> & <- & Hr).
    apply map_eq_app in Hr as (w & z' & -> & Hw & <-).
    exists a', w, z'. done.
  - intros (a & w & z & -> & Hw). exists (map f a), (map f z).
    by rewrite !map_app, Hw.
Qed.

End ListFacts.
