(* ===== verification/PyStr.v ===== *)
(** * The Python [str] operations the notebook uses

    [Contains]: [needle in hay] ([str.__contains__]), line 26.
    [Split]: [s.split(sep)] for a one-character [sep], line 25, following
      CPython's [split_char] loop; [join] is [sep.join] and the two are
      inverse to each other.
    [Lower]: [s.lower()], line 26, through the [CaseMapping] interface.
    [Repeat]: [s * n], line 40.
    [Replace]: [s.replace(old, new)], CPython's scan, which the universal
      newlines of [subprocess.run(..., text=True)] (line 23) use. *)

From Stdlib Require Import String Ascii NArith ZArith.
From stdpp Require Import base list.
From S2P Require Import Prelude.

Module Contains.

(** [s.startswith(p)]: the first step of CPython's search at one offset. *)
Fixpoint startswith (p s : pystr) : bool :=
  match p, s with
  | [], _ => true
  | c :: p', d :: s' => N.eqb c d && startswith p' s'
  | _ :: _, [] => false
  end.

(** [needle in hay]: some offset of [hay] starts with [needle]
    ([''] is in every string). *)
Fixpoint str_contains (needle hay : pystr) : bool :=
  startswith needle hay ||
  match hay with
  | [] => false
  | _ :: t => str_contains needle t
  end.

(** The reference: [needle] is a factor of [hay]. *)
Definition infix (needle hay : pystr) : Prop :=
  exists a b, hay = a ++ needle ++ b.

Lemma startswith_spec p s : startswith p s = true <-> exists b, s = p ++ b.
Proof.
  revert s. induction p as [|c p IH]; intros [|d s]; simpl.
  - split; eauto.
  - split; eauto.
  - split; [done|]. by intros [b ?].
  - rewrite andb_true_iff, IH. destruct_cp_eqb; split.
    + intros [_ [b ->]]. eauto.
    + intros [b Hb]. simplify_eq. eauto.
    + by intros [].
    + intros [b Hb]. simplify_eq.
Qed.

Lemma str_contains_infix needle hay :
  str_contains needle hay = true <-> infix needle hay.
Proof.
  unfold infix. induction hay as [|d hay IH]; simpl.
  - rewrite orb_false_r, startswith_spec. split.
    + intros [b Hb]. exists [], b. done.
    + intros (a & b & Hab). exists b.
      destruct a, needle; simplify_eq/=; done.
  - rewrite orb_true_iff, startswith_spec, IH. split.
    + intros [[b Hb] | (a & b & ->)]; [exists [], b; done|].
      exists (d :: a), b. done.
    + intros ([|x a] & b & Hab); simpl in Hab; [left; eauto|].
      simplify_eq. right. eauto.
Qed.

#[export] Instance infix_dec needle hay : Decision (infix needle hay).
Proof.
  destruct (str_contains needle hay) eqn:E.
  - left. by apply str_contains_infix.
  - right. intros Hin%str_contains_infix. congruence.
Defined.

Lemma str_contains_cons needle x r :
  str_contains needle (x :: r) = startswith needle (x :: r) || str_contains needle r.
Proof. done. Qed.

(** A prefix none of whose code points starts the needle cannot hold a
    match: the search goes on after it. *)
Lemma str_contains_skip (c : N) (n x r : pystr) :
  (forall y, In y x -> y <> c) ->
  str_contains (c :: n) (x ++ r) = str_contains (c :: n) r.
Proof.
  induction x as [|y x IH]; intros Hx; [done|]. simpl.
  destruct (N.eqb_spec c y) as [->|_]; simpl.
  - exfalso. by apply (Hx y); [left|].
  - apply IH. intros z Hz. apply Hx. by right.
Qed.

End Contains.

Module Split.

(** CPython's [split_char]: [cur] holds the current piece, reversed; a
    separator closes it, the end of the string closes the last one. *)
Fixpoint split_char_go (ch : N) (s cur : pystr) : list pystr :=
  match s with
  | [] => [rev cur]
  | c :: t =>
      if N.eqb c ch then rev cur :: split_char_go ch t []
      else split_char_go ch t (c :: cur)
  end.

Definition split_char (ch : N) (s : pystr) : list pystr := split_char_go ch s [].

(** [sep.join(pieces)]. *)
Fixpoint join (sep : pystr) (pieces : list pystr) : pystr :=
  match pieces with
  | [] => []
  | [p] => p
  | p :: ps => p ++ sep ++ join sep ps
  end.

Lemma join_cons_cons sep p q ps :
  join sep (p :: q :: ps) = p ++ sep ++ join sep (q :: ps).
Proof. done. Qed.

Lemma split_char_go_nonempty ch s cur : split_char_go ch s cur <> [].
Proof.
  revert cur. induction s as [|c s IH]; intros cur; simpl; [done|].
  by destruct (N.eqb c ch).
Qed.

Lemma join_split_char_go ch s cur :
  join [ch] (split_char_go ch s cur) = rev cur ++ s.
Proof.
  revert cur. induction s as [|c s IH]; intros cur; simpl.
  - by rewrite app_nil_r.
  - destruct_cp_eqb.
    + destruct (split_char_go ch s []) as [|q qs] eqn:E;
        [by apply split_char_go_nonempty in E|].
      rewrite join_cons_cons, <- E, IH. done.
    + rewrite IH. simpl. by rewrite <- app_assoc.
Qed.

(** Reading a separator-free piece only extends the current piece. *)
Lemma split_char_go_piece ch p r cur :
  ~ In ch p -> split_char_go ch (p ++ r) cur = split_char_go ch r (rev p ++ cur).
Proof.
  revert cur. induction p as [|c p IH]; intros cur Hp; simpl; [done|].
  destruct_cp_eqb; [exfalso; apply Hp; by left|].
  rewrite IH; [|intros ?; apply Hp; by right]. by rewrite <- app_assoc.
Qed.

Lemma split_char_go_pieces_free ch s cur :
  ~ In ch cur -> Forall (fun p => ~ In ch p) (split_char_go ch s cur).
Proof.
  revert cur. induction s as [|c s IH]; intros cur Hcur; simpl.
  - constructor; [|constructor]. by rewrite <- in_rev.
  - destruct_cp_eqb.
    + constructor; [by rewrite <- in_rev|]. apply IH. intros [].
    + apply IH. intros [Heq|Hin]; [congruence|auto].
Qed.

Lemma split_char_go_snoc ch s cur :
  split_char_go ch (s ++ [ch]) cur = split_char_go ch s cur ++ [[]].
Proof.
  revert cur. induction s as [|c s IH]; intros cur; simpl.
  - by rewrite N.eqb_refl.
  - destruct (N.eqb c ch); [by rewrite IH|apply IH].
Qed.

(** Splitting on [ch] and joining with [ch] gives back the string. *)
Lemma join_split_char (ch : N) (s : pystr) : join [ch] (split_char ch s) = s.
Proof. apply join_split_char_go. Qed.

Lemma split_char_join_pieces (ch : N) (ps : list pystr) :
  ps <> [] -> Forall (fun p => ~ In ch p) ps -> split_char ch (join [ch] ps) = ps.
Proof.
  induction ps as [|p ps IH]; intros Hne Hfree; [done|].
  apply Forall_cons in Hfree as [Hp Hps]. unfold split_char.
  destruct ps as [|q qs].
  - rewrite <- (app_nil_r (join [ch] [p])). simpl.
    rewrite split_char_go_piece by done. simpl.
    by rewrite app_nil_r, rev_involutive.
  - rewrite join_cons_cons, split_char_go_piece by done. simpl.
    rewrite N.eqb_refl, app_nil_r, rev_involutive. f_equal. by apply IH.
Qed.

(** A string ending with the separator splits into
    the pieces of the string without it and one more, empty, piece: the
    newline ending [pip list]'s output gives Cell 3's loop a last
    iteration on [""]. *)
Theorem split_char_snoc_sep (ch : N) (s : pystr) :
  split_char ch (s ++ [ch]) = split_char ch s ++ [[]].
Proof. apply split_char_go_snoc. Qed.

End Split.

Module Lower.
Import Contains.

(** The ASCII part of [str.lower]: [A]-[Z] to [a]-[z]. *)
Definition ascii_lower (c : N) : N :=
  if (65 <=? c)%N && (c <=? 90)%N then (c + 32)%N else c.

(** What CPython's [lower_ucs4] produces for the code point [c] found
    after [before] (reversed) and before [after]: one to three code
    points from the Unicode tables, and for U+03A3 a final or non-final
    sigma chosen by its neighbours.  The laws are the facts of the
    Unicode data the notebook's search relies on: ASCII letters map as
    in ASCII, no mapping is empty, and no non-ASCII code point maps to
    anything containing [d], [b] or [t] (only U+212A and U+0130 map to
    ASCII at all, to [k] and to [i] with a combining dot). *)
Class CaseMapping := {
  lower_at : pystr -> N -> pystr -> pystr;
  lower_at_ascii : forall b c a, (c < 128)%N -> lower_at b c a = [ascii_lower c];
  lower_at_nonempty : forall b c a, lower_at b c a <> [];
  lower_at_no_dbt : forall b c a y,
    (128 <= c)%N -> In y (lower_at b c a) -> ~ In y (lit "dbt")
}.

Section WithCaseMapping.
Context `{CM : CaseMapping}.

(** [str.lower]: the mappings of the code points, left to right. *)
Fixpoint lower_go (before s : pystr) : pystr :=
  match s with
  | [] => []
  | c :: t => lower_at before c t ++ lower_go (c :: before) t
  end.

Definition str_lower (s : pystr) : pystr := lower_go [] s.

Lemma ascii_lower_ge_128 c : (128 <= c)%N -> ascii_lower c = c.
Proof.
  intros Hc. unfold ascii_lower.
  destruct (N.leb_spec 65 c), (N.leb_spec c 90); simpl; lia.
Qed.

(** A pattern made of [d], [b] and [t] starts the lowered string
    exactly when it starts the ASCII-lowered one. *)
Lemma startswith_lower_go (p : pystr) (b s : pystr) :
  (forall x, In x p -> In x (lit "dbt")) ->
  startswith p (lower_go b s) = startswith p (map ascii_lower s).
Proof.
  revert p b. induction s as [|c s IH]; intros [|x p] b Hp; try done.
  simpl lower_go. destruct (N.ltb_spec c 128) as [Hc|Hc].
  - rewrite lower_at_ascii by done. simpl. f_equal.
    apply IH. intros y Hy. apply Hp. by right.
  - destruct (lower_at b c s) as [|y ys] eqn:E; [by apply lower_at_nonempty in E|].
    simpl. rewrite ascii_lower_ge_128 by done.
    assert (Hx : In x (lit "dbt")) by (apply Hp; by left).
    assert (Hy : ~ In y (lit "dbt")) by (eapply lower_at_no_dbt; [done|]; rewrite E; by left).
    destruct (N.eqb_spec x y) as [->|]; [done|].
    destruct (N.eqb_spec x c) as [->|]; [|done].
    exfalso. simpl in Hx. lia.
Qed.

Lemma contains_dbt_lower_go (b s : pystr) :
  str_contains (lit "dbt") (lower_go b s) =
  str_contains (lit "dbt") (map ascii_lower s).
Proof.
  revert b. induction s as [|c s IH]; intros b; [done|].
  destruct (N.ltb_spec c 128) as [Hc|Hc].
  - assert (E : lower_go b (c :: s) = ascii_lower c :: lower_go (c :: b) s)
      by (simpl; by rewrite lower_at_ascii).
    rewrite E, str_contains_cons, <- E, startswith_lower_go, IH by done.
    simpl map. by rewrite str_contains_cons.
  - simpl lower_go. change (lit "dbt") with [100%N; 98%N; 116%N] in *.
    rewrite str_contains_skip.
    + rewrite IH. simpl map. rewrite str_contains_cons, ascii_lower_ge_128 by done.
      cbn [startswith]. destruct (N.eqb_spec 100 c); [lia|done].
    + intros y Hy ->. eapply lower_at_no_dbt; [exact Hc|exact Hy|by left].
Qed.

(** C18: whatever the Unicode case tables, ['dbt' in
    s.lower()] holds exactly when ['dbt'] occurs in the ASCII lowering
    of [s], that is when [s] has a factor [dD][bB][tT]. *)
Theorem dbt_in_lower (s : pystr) :
  str_contains (lit "dbt") (str_lower s) = true <->
  exists a w z, s = a ++ w ++ z /\ map ascii_lower w = lit "dbt".
Proof.
  unfold str_lower. rewrite contains_dbt_lower_go, str_contains_infix.
  apply map_factor_iff.
Qed.
End WithCaseMapping.

(** A case mapping that satisfies the laws: ASCII letters lowered, every
    other code point kept.  It agrees with Python on ASCII strings. *)
Definition ascii_case_mapping : CaseMapping.
Proof.
  refine {| lower_at := fun _ c _ => [ascii_lower c] |}.
  - done.
  - done.
  - intros _ c _ y Hc [<-|[]]. rewrite ascii_lower_ge_128 by done.
    simpl. lia.
Defined.

End Lower.

Module Repeat.

(** [s * n]: the empty string when [n < 1], else [n] copies of [s]. *)
Definition str_mul (s : pystr) (n : Z) : pystr :=
  if (n <=? 0)%Z then [] else concat (repeat s (Z.to_nat n)).

(** [s * n] has [len(s) * n] code points when [n] is positive
    and none when [n <= 0]. *)
Theorem length_str_mul (s : pystr) (n : Z) :
  length (str_mul s n) = length s * Z.to_nat n.
Proof.
  unfold str_mul. destruct (Z.leb_spec n 0).
  - destruct n as [|p|p]; simpl; lia.
  - induction (Z.to_nat n) as [|k IH]; simpl; [lia|].
    rewrite length_app, IH. lia.
Qed.


End Repeat.

(** ** [str.replace] *)

Module Replace.
Import Contains.

(** CPython's [replace] for a non-empty [old]: scan left to right, write
    [new] for each occurrence of [old] and go on after it; [skip] counts
    the characters of the occurrence still to pass. *)
Fixpoint replace_go (old new : pystr) (skip : nat) (s : pystr) : pystr :=
  match s with
  | [] => []
  | c :: t =>
      match skip with
      | S k => replace_go old new k t
      | O => if startswith old (c :: t) then new ++ replace_go old new (pred (length old)) t
             else c :: replace_go old new 0 t
      end
  end.

(** [s.replace(old, new)]; an empty [old] is CPython's
    [replace_interleave]: [new] before every character and at the end. *)
Definition str_replace (old new s : pystr) : pystr :=
  match old with
  | [] => concat (map (fun c => new ++ [c]) s) ++ new
  | _ => replace_go old new 0 s
  end.

Lemma startswith_infix old s : startswith old s = true -> infix old s.
Proof. intros [b ->]%startswith_spec. by exists [], b. Qed.

Lemma infix_cons old c s : infix old s -> infix old (c :: s).
Proof. intros (a & b & ->). by exists (c :: a), b. Qed.

(** Without an occurrence of [old] the scan copies the string. *)
Lemma replace_go_absent old new s : ~ infix old s -> replace_go old new 0 s = s.
Proof.
  induction s as [|c s IH]; intros Hs; [done|]. simpl.
  destruct (startswith old (c :: s)) eqn:E; [by apply startswith_infix in E|].
  rewrite IH; [done|]. intros Hin. by apply Hs, infix_cons.
Qed.

(** Replacing one code point by another is a map. *)
Lemma replace_go_single a b s :
  replace_go [a] [b] 0 s = map (fun c => if (c =? a)%N then b else c) s.
Proof.
  induction s as [|c s IH]; [done|]. simpl. rewrite IH, andb_true_r, N.eqb_sym.
  by destruct (N.eqb c a).
Qed.

(** Replacing one code point by a string. *)
Lemma replace_go_char a new s :
  replace_go [a] new 0 s = concat (map (fun c => if (c =? a)%N then new else [c]) s).
Proof.
  induction s as [|c s IH]; [done|]. simpl. rewrite IH, andb_true_r, N.eqb_sym.
  by destruct (N.eqb c a).
Qed.

End Replace.
