(* ===== verification/Codec.v ===== *)
(** * Text and bytes: UTF-8 and universal newlines

    [Utf8] is CPython's UTF-8 codec with the [strict] error handler, the
    codec between the notebook's [str] values and the bytes of the child
    processes and of standard output: [encode_cp] follows
    [utf8_encoder] and [decode] follows [utf8_decode]
    (Objects/stringlib/codecs.h), with their shifts, masks and range
    checks.  Every error ([UnicodeEncodeError] on a surrogate,
    [UnicodeDecodeError] on an invalid start byte, an invalid
    continuation byte, an overlong form, a surrogate, a code point above
    U+10FFFF or truncated data) is [None].  The theorems: the two
    directions are inverse ([decode_encode], [encode_decode]), the
    decoded text is made of Unicode scalar values, ASCII is unchanged.
    They serve the notebook's theorems: what [text=True] hands to Cell
    3 can be printed back, and Cell 3 prints the same lines whichever
    line ends [pip] used ([Cells.cell3_crlf_output]).

    [Newlines] is the universal newlines translation of [text=True]:
    [Popen._translate_newlines] decodes the bytes and replaces ["\r\n"]
    then ["\r"] by ["\n"]; [text_decode] is the whole conversion. *)

From Stdlib Require Import String NArith ZArith Lia.
From stdpp Require Import base list option.
From S2P Require Import Prelude PyStr.

Module Utf8.
Local Open Scope N_scope.

(** Python's [str] holds code points below 0x110000. *)
Definition is_code_point (c : N) : bool := c <? 0x110000.

Definition is_surrogate (c : N) : bool := (0xD800 <=? c) && (c <=? 0xDFFF).

(** A Unicode scalar value: what UTF-8 can encode. *)
Definition is_scalar (c : N) : bool := is_code_point c && negb (is_surrogate c).

(** [utf8_encoder] on one code point. *)
Definition encode_cp (ch : N) : option (list N) :=
  if ch <? 0x80 then Some [ch]
  else if ch <? 0x800 then
    Some [N.lor 0xC0 (N.shiftr ch 6); N.lor 0x80 (N.land ch 0x3F)]
  else if is_surrogate ch then None
  else if ch <? 0x10000 then
    Some [N.lor 0xE0 (N.shiftr ch 12); N.lor 0x80 (N.land (N.shiftr ch 6) 0x3F);
          N.lor 0x80 (N.land ch 0x3F)]
  else
    Some [N.lor 0xF0 (N.shiftr ch 18); N.lor 0x80 (N.land (N.shiftr ch 12) 0x3F);
          N.lor 0x80 (N.land (N.shiftr ch 6) 0x3F); N.lor 0x80 (N.land ch 0x3F)].

(** [s.encode('utf-8')]. *)
Fixpoint encode (s : pystr) : option (list N) :=
  match s with
  | [] => Some []
  | c :: t => b ← encode_cp c; r ← encode t; Some (b ++ r)
  end.

Definition IS_CONTINUATION_BYTE (b : N) : bool := (0x80 <=? b) && (b <? 0xC0).

(** [b.decode('utf-8')]. *)
Fixpoint decode (bs : list N) : option pystr :=
  match bs with
  | [] => Some []
  | ch :: r =>
      if ch <? 0x80 then cons ch <$> decode r
      else if ch <? 0xE0 then
        if ch <? 0xC2 then None
        else match r with
             | ch2 :: r' =>
                 if IS_CONTINUATION_BYTE ch2
                 then cons (N.shiftl ch 6 + ch2 - (N.shiftl 0xC0 6 + 0x80)) <$> decode r'
                 else None
             | [] => None
             end
      else if ch <? 0xF0 then
        match r with
        | ch2 :: ch3 :: r' =>
            if IS_CONTINUATION_BYTE ch2
               && negb ((ch =? 0xE0) && (ch2 <? 0xA0))
               && negb ((ch =? 0xED) && (0xA0 <=? ch2))
               && IS_CONTINUATION_BYTE ch3
            then cons (N.shiftl ch 12 + N.shiftl ch2 6 + ch3
                       - (N.shiftl 0xE0 12 + N.shiftl 0x80 6 + 0x80)) <$> decode r'
            else None
        | _ => None
        end
      else if ch <? 0xF5 then
        match r with
        | ch2 :: ch3 :: ch4 :: r' =>
            if IS_CONTINUATION_BYTE ch2
               && negb ((ch =? 0xF0) && (ch2 <? 0x90))
               && negb ((ch =? 0xF4) && (0x90 <=? ch2))
               && IS_CONTINUATION_BYTE ch3 && IS_CONTINUATION_BYTE ch4
            then cons (N.shiftl ch 18 + N.shiftl ch2 12 + N.shiftl ch3 6 + ch4
                       - (N.shiftl 0xF0 18 + N.shiftl 0x80 12 + N.shiftl 0x80 6 + 0x80))
                   <$> decode r'
            else None
        | _ => None
        end
      else None
  end.

(** ** Bit operations as arithmetic *)

Lemma lor_add k a x : a mod 2 ^ k = 0 -> x < 2 ^ k -> N.lor a x = a + x.
Proof.
  intros Ha Hx. rewrite <- N.lxor_lor, N.add_nocarry_lxor; [done| |];
    apply N.bits_inj_0; intros n; rewrite N.land_spec;
    (destruct (N.lt_ge_cases n k) as [Hn|Hn];
     [ assert (Ea : a = a / 2 ^ k * 2 ^ k)
         by (rewrite (N.div_mod a (2 ^ k)) at 1 by (apply N.pow_nonzero; lia); rewrite Ha; lia);
       rewrite Ea, N.mul_pow2_bits_low by done; done
     | destruct (N.eq_dec x 0) as [->|Hx0]; [by rewrite N.bits_0, andb_false_r|];
       rewrite (N.bits_above_log2 x n); [by rewrite andb_false_r|];
       apply N.log2_lt_pow2 in Hx; lia ]).
Qed.

Lemma land_3F x : N.land x 0x3F = x mod 64.
Proof. change 0x3F with (N.ones 6). by rewrite N.land_ones. Qed.

Lemma shiftr_div x k : N.shiftr x k = x / 2 ^ k.
Proof. apply N.shiftr_div_pow2. Qed.

Lemma shiftl_mul x k : N.shiftl x k = x * 2 ^ k.
Proof. apply N.shiftl_mul_pow2. Qed.

(** The bytes [encode_cp] writes, in arithmetic. *)
Lemma encode_cp_1 ch : ch < 0x80 -> encode_cp ch = Some [ch].
Proof. intros H. unfold encode_cp. by destruct (N.ltb_spec ch 0x80); [|lia]. Qed.

Lemma encode_cp_2 ch :
  0x80 <= ch < 0x800 -> encode_cp ch = Some [0xC0 + ch / 64; 0x80 + ch mod 64].
Proof.
  intros H. unfold encode_cp. rewrite land_3F, shiftr_div.
  destruct (N.ltb_spec ch 0x80); [lia|]. destruct (N.ltb_spec ch 0x800); [|lia].
  by rewrite (lor_add 6 0xC0), (lor_add 6 0x80) by (done || nlia).
Qed.

Lemma encode_cp_3 ch :
  0x800 <= ch < 0x10000 -> is_surrogate ch = false ->
  encode_cp ch = Some [0xE0 + ch / 4096; 0x80 + ch / 64 mod 64; 0x80 + ch mod 64].
Proof.
  intros H Hs. unfold encode_cp. rewrite !land_3F, !shiftr_div, Hs.
  destruct (N.ltb_spec ch 0x80); [lia|]. destruct (N.ltb_spec ch 0x800); [lia|].
  destruct (N.ltb_spec ch 0x10000); [|lia].
  by rewrite (lor_add 4 0xE0), !(lor_add 6 0x80) by (done || nlia).
Qed.

Lemma encode_cp_4 ch :
  0x10000 <= ch < 0x110000 ->
  encode_cp ch = Some [0xF0 + ch / 262144; 0x80 + ch / 4096 mod 64;
                       0x80 + ch / 64 mod 64; 0x80 + ch mod 64].
Proof.
  intros H. unfold encode_cp. rewrite !land_3F, !shiftr_div.
  destruct (N.ltb_spec ch 0x80); [lia|]. destruct (N.ltb_spec ch 0x800); [lia|].
  assert (Hs : is_surrogate ch = false).
  { unfold is_surrogate. destruct (N.leb_spec 0xD800 ch), (N.leb_spec ch 0xDFFF); done || lia. }
  rewrite Hs. destruct (N.ltb_spec ch 0x10000); [lia|].
  by rewrite (lor_add 3 0xF0), !(lor_add 6 0x80) by (done || nlia).
Qed.

(** Evaluate the powers of two that [shiftl_mul] and [shiftr_div] leave. *)
Ltac norm_pow :=
  repeat match goal with
  | |- context [(2 ^ ?k)%N] => let v := eval vm_compute in (2 ^ k)%N in change (2 ^ k)%N with v
  | H : context [(2 ^ ?k)%N] |- _ =>
      let v := eval vm_compute in (2 ^ k)%N in change (2 ^ k)%N with v in H
  end.

(** Settle the byte comparisons of [decode] that arithmetic decides, and
    split on the others. *)
Ltac decide_cmp :=
  repeat (match goal with
  | |- context [(?a <? ?b)%N] =>
      first [ rewrite (proj2 (N.ltb_lt a b)) by nlia | rewrite (proj2 (N.ltb_ge a b)) by nlia
            | destruct (N.ltb_spec a b) ]
  | |- context [(?a <=? ?b)%N] =>
      first [ rewrite (proj2 (N.leb_le a b)) by nlia | rewrite (proj2 (N.leb_gt a b)) by nlia
            | destruct (N.leb_spec a b) ]
  | |- context [(?a =? ?b)%N] =>
      first [ rewrite (proj2 (N.eqb_eq a b)) by nlia | rewrite (proj2 (N.eqb_neq a b)) by nlia
            | destruct (N.eqb_spec a b) ]
  end; cbn [andb negb orb]).

Lemma not_surrogate ch : is_surrogate ch = false <-> ch < 0xD800 \/ 0xDFFF < ch.
Proof.
  unfold is_surrogate. destruct (N.leb_spec 0xD800 ch), (N.leb_spec ch 0xDFFF); simpl;
    split; intros; (done || lia).
Qed.

(** Decoding the bytes of one scalar value gives it back. *)
Lemma decode_encode_cp ch b r :
  is_scalar ch = true -> encode_cp ch = Some b -> decode (b ++ r) = cons ch <$> decode r.
Proof.
  unfold is_scalar, is_code_point. intros Hch Hb.
  apply andb_prop in Hch as [Hc Hs]. apply N.ltb_lt in Hc. apply negb_true_iff in Hs.
  pose proof (proj1 (not_surrogate ch) Hs) as Hs'.
  destruct (N.lt_ge_cases ch 0x80); [rewrite encode_cp_1 in Hb by done|];
    [|destruct (N.lt_ge_cases ch 0x800); [rewrite encode_cp_2 in Hb by lia|]];
    [| |destruct (N.lt_ge_cases ch 0x10000);
        [rewrite encode_cp_3 in Hb by (done || lia)|rewrite encode_cp_4 in Hb by lia]];
    injection Hb as <-; cbn [app decode]; unfold IS_CONTINUATION_BYTE;
    rewrite ?shiftl_mul; norm_pow; decide_cmp; try nlia;
    do 2 f_equal; nlia.
Qed.

(** Encoding a string of Unicode scalar values to UTF-8 and decoding
    the bytes gives the string back. *)
Lemma decode_encode s bs :
  Forall (fun c => is_scalar c = true) s -> encode s = Some bs -> decode bs = Some s.
Proof.
  revert bs. induction s as [|c s IH]; intros bs Hs He; [by injection He as <-|].
  inversion Hs as [|? ? Hc Hs']; subst. simpl in He.
  destruct (encode_cp c) as [b|] eqn:Eb; [|done]. simpl in He.
  destruct (encode s) as [r|] eqn:Er; [|done]. injection He as <-.
  rewrite (decode_encode_cp c b r Hc Eb), (IH r Hs' eq_refl). done.
Qed.

(** The code point [decode] computes from an accepted sequence is encoded
    back to that sequence. *)
Lemma encode_cp_of_2 ch ch2 :
  0xC2 <= ch < 0xE0 -> 0x80 <= ch2 < 0xC0 ->
  encode_cp (ch * 64 + ch2 - (0xC0 * 64 + 0x80)) = Some [ch; ch2].
Proof. intros. rewrite encode_cp_2 by nlia. repeat f_equal; nlia. Qed.

Lemma encode_cp_of_3 ch ch2 ch3 :
  0xE0 <= ch < 0xF0 -> 0x80 <= ch2 < 0xC0 -> 0x80 <= ch3 < 0xC0 ->
  (ch <> 0xE0 \/ 0xA0 <= ch2) -> (ch <> 0xED \/ ch2 < 0xA0) ->
  encode_cp (ch * 4096 + ch2 * 64 + ch3 - (0xE0 * 4096 + 0x80 * 64 + 0x80)) = Some [ch; ch2; ch3].
Proof.
  intros. rewrite encode_cp_3; [repeat f_equal; nlia|nlia|].
  apply not_surrogate. nlia.
Qed.

Lemma encode_cp_of_4 ch ch2 ch3 ch4 :
  0xF0 <= ch < 0xF5 -> 0x80 <= ch2 < 0xC0 -> 0x80 <= ch3 < 0xC0 -> 0x80 <= ch4 < 0xC0 ->
  (ch <> 0xF0 \/ 0x90 <= ch2) -> (ch <> 0xF4 \/ ch2 < 0x90) ->
  encode_cp (ch * 262144 + ch2 * 4096 + ch3 * 64 + ch4
             - (0xF0 * 262144 + 0x80 * 4096 + 0x80 * 64 + 0x80)) = Some [ch; ch2; ch3; ch4].
Proof. intros. rewrite encode_cp_4 by nlia. repeat f_equal; nlia. Qed.

(** Turn a test of [decode] into arithmetic facts. *)
Ltac bool_to_prop H :=
  repeat rewrite ?andb_true_iff, ?andb_false_iff, ?negb_true_iff, ?negb_false_iff,
    ?N.leb_le, ?N.ltb_lt, ?N.eqb_eq, ?N.leb_gt, ?N.ltb_ge, ?N.eqb_neq in H.

(** Split [decode]'s test in [H]; on success, the rest decodes to [s']. *)
Ltac decode_branch H :=
  match type of H with
  | context [if ?c then _ else _] =>
      let Ec := fresh "Ec" in
      destruct c eqn:Ec; [bool_to_prop Ec|done]
  end;
  match type of H with
  | context [decode ?r] =>
      let Er := fresh "Er" in
      let s' := fresh "s'" in
      destruct (decode r) as [s'|] eqn:Er; [|done]; injection H as <-
  end;
  rewrite ?shiftl_mul; norm_pow.

Lemma is_scalar_iff c : is_scalar c = true <-> c < 0x110000 /\ (c < 0xD800 \/ 0xDFFF < c).
Proof.
  unfold is_scalar, is_code_point. rewrite andb_true_iff, negb_true_iff, not_surrogate, N.ltb_lt.
  done.
Qed.

(** Close a branch of [decode]: re-encode the code point, use the
    induction hypothesis on the rest. *)
Ltac decode_close lem :=
  match goal with
  | IH : forall bs s, _ -> decode bs = Some s -> _, Er : decode ?r = Some ?s' |- _ =>
      destruct (IH r s') as [Hr Hs]; [simpl in *; lia|done|];
      simpl; rewrite lem, Hr by nlia; split; [done|];
      constructor; [apply is_scalar_iff; nlia|done]
  end.

Lemma encode_decode_len (n : nat) bs s :
  (length bs <= n)%nat -> decode bs = Some s ->
  encode s = Some bs /\ Forall (fun c => is_scalar c = true) s.
Proof.
  revert bs s. induction n as [|n IH]; intros [|ch r] s Hlen Hd; simpl in Hlen;
    [by injection Hd as <-|lia|by injection Hd as <-|].
  cbn [decode] in Hd. unfold IS_CONTINUATION_BYTE in Hd.
  destruct (N.ltb_spec ch 0x80).
  { destruct (decode r) as [s'|] eqn:Er; [|done]. injection Hd as <-.
    destruct (IH r s') as [Hr Hs]; [lia|done|]. simpl. rewrite encode_cp_1, Hr by done.
    split; [done|]. constructor; [apply is_scalar_iff; lia|done]. }
  destruct (N.ltb_spec ch 0xE0).
  { destruct (N.ltb_spec ch 0xC2); [done|]. destruct r as [|ch2 r]; [done|].
    decode_branch Hd. decode_close encode_cp_of_2. }
  destruct (N.ltb_spec ch 0xF0).
  { destruct r as [|ch2 [|ch3 r]]; try done.
    decode_branch Hd. decode_close encode_cp_of_3. }
  destruct (N.ltb_spec ch 0xF5); [|done].
  destruct r as [|ch2 [|ch3 [|ch4 r]]]; try done.
  decode_branch Hd. decode_close encode_cp_of_4.
Qed.

(** [decode] accepts only the UTF-8 encoding of
    a string of Unicode scalar values: what it decodes encodes back to
    the same bytes (no overlong form, no surrogate, nothing above
    U+10FFFF is accepted). *)
Lemma encode_decode bs s :
  decode bs = Some s -> encode s = Some bs /\ Forall (fun c => is_scalar c = true) s.
Proof. apply (encode_decode_len (length bs)). lia. Qed.

Lemma encode_app s t :
  encode (s ++ t) = b1 ← encode s; b2 ← encode t; Some (b1 ++ b2).
Proof.
  induction s as [|c s IH]; simpl.
  - by destruct (encode t).
  - destruct (encode_cp c); [|done]. simpl. rewrite IH.
    destruct (encode s), (encode t); simpl; by rewrite ?app_assoc.
Qed.

(** ASCII text is its own encoding. *)
Lemma encode_ascii s : Forall (fun c => c < 0x80) s -> encode s = Some s.
Proof.
  induction 1 as [|c s Hc _ IH]; [done|]. simpl. by rewrite encode_cp_1, IH.
Qed.

(** A string without surrogates: what [encode] accepts. *)
Definition encodable (s : pystr) : Prop := Forall (fun c => is_surrogate c = false) s.

Lemma encode_cp_Some c : is_surrogate c = false -> exists b, encode_cp c = Some b.
Proof. intros Hc. unfold encode_cp. rewrite Hc. repeat case_match; eauto. Qed.

Lemma encode_Some s : encodable s -> exists bs, encode s = Some bs.
Proof.
  induction 1 as [|c s Hc _ [bs IH]]; [by eexists|].
  destruct (encode_cp_Some c Hc) as [b Hb]. exists (b ++ bs). simpl. by rewrite Hb, IH.
Qed.

Lemma encodable_app s t : encodable (s ++ t) <-> encodable s /\ encodable t.
Proof. apply Forall_app. Qed.

Lemma encodable_scalar s : Forall (fun c => is_scalar c = true) s -> encodable s.
Proof.
  unfold encodable. rewrite !List.Forall_forall. intros Hs c Hc.
  specialize (Hs c Hc). unfold is_scalar in Hs. apply andb_prop in Hs as [_ Hs].
  by apply negb_true_iff in Hs.
Qed.

Lemma encode_app_Some s t bs :
  encode (s ++ t) = Some bs <->
  exists b1 b2, encode s = Some b1 /\ encode t = Some b2 /\ bs = b1 ++ b2.
Proof.
  rewrite encode_app. destruct (encode s) as [b1|], (encode t) as [b2|]; simpl;
    split; try (intros [= <-]; eauto); try intros (? & ? & ? & ? & ?); naive_solver.
Qed.

End Utf8.

Module Newlines.
Import Contains Replace.

Definition CR : N := 13.

(** [data.replace("\r\n", "\n").replace("\r", "\n")]. *)
Definition translate_newlines (s : pystr) : pystr :=
  str_replace [CR] [NL] (str_replace [CR; NL] [NL] s).

(** [Popen._translate_newlines(data, 'utf-8', 'strict')]: [None] is the
    [UnicodeDecodeError] it raises. *)
Definition text_decode (bs : list N) : option pystr :=
  translate_newlines <$> Utf8.decode bs.

Lemma translate_newlines_map s :
  translate_newlines s =
  map (fun c => if (c =? CR)%N then NL else c) (replace_go [CR; NL] [NL] 0 s).
Proof. apply replace_go_single. Qed.

(** The translation keeps a property every character has and ["\n"]
    has. *)
Lemma translate_newlines_Forall (P : N -> Prop) s :
  P NL -> Forall P s -> Forall P (translate_newlines s).
Proof.
  intros HNL Hs. rewrite translate_newlines_map. apply Forall_map.
  assert (Hgo : forall k, Forall P (replace_go [CR; NL] [NL] k s)).
  { induction Hs as [|c s Hc Hs IH]; intros [|k]; simpl; try constructor; try apply IH.
    destruct (_ && _); constructor; done || apply IH. }
  pose proof (Hgo 0) as H0. rewrite Forall_forall in H0 |- *.
  intros c Hc. specialize (H0 c Hc). by destruct (c =? CR)%N.
Qed.

Lemma replace_go_crlf s :
  ~ In CR s ->
  replace_go [CR; NL] [NL] 0 (concat (map (fun c => if (c =? NL)%N then [CR; NL] else [c]) s)) = s.
Proof.
  induction s as [|c s IH]; intros Hs; [done|].
  assert (Hc : c <> CR) by (intros ->; apply Hs; by left).
  assert (Hs' : ~ In CR s) by (intros Hin; apply Hs; by right).
  destruct (N.eqb_spec c NL) as [->|Hn]; simpl.
  - by rewrite IH.
  - rewrite (proj2 (N.eqb_neq c NL) Hn). cbn [app replace_go startswith].
    rewrite (proj2 (N.eqb_neq CR c)) by congruence. cbn [andb]. by rewrite IH.
Qed.

(** Text written with Windows line ends (each ["\n"] as ["\r\n"]) is
    read back by the universal newline translation as the text itself. *)
Lemma translate_newlines_crlf s :
  ~ In CR s -> translate_newlines (str_replace [NL] [CR; NL] s) = s.
Proof.
  intros Hs. change (str_replace [NL] [CR; NL] s) with (replace_go [NL] [CR; NL] 0 s).
  rewrite replace_go_char, translate_newlines_map, replace_go_crlf by done.
  rewrite <- (map_id s) at 2. apply map_ext_in. intros c Hc.
  destruct (N.eqb_spec c CR); [subst; done|done].
Qed.

(** [text=True] reads the UTF-8 bytes of text written with Windows line
    ends as the text itself. *)
Lemma text_decode_crlf t bs :
  Forall (fun c => Utf8.is_scalar c = true) t -> ~ In CR t ->
  Utf8.encode (str_replace [NL] [CR; NL] t) = Some bs -> text_decode bs = Some t.
Proof.
  intros Hs Hcr He. unfold text_decode.
  rewrite (Utf8.decode_encode (str_replace [NL] [CR; NL] t) bs);
    [simpl; f_equal; by apply translate_newlines_crlf| |done].
  change (str_replace [NL] [CR; NL] t) with (replace_go [NL] [CR; NL] 0 t).
  rewrite replace_go_char. apply Forall_concat, Forall_map.
  eapply Forall_impl; [|exact Hs]. intros c Hc. by destruct (c =? NL)%N; repeat constructor.
Qed.

(** What [text=True] hands to the program can be printed back. *)
Lemma text_decode_encodable bs s : text_decode bs = Some s -> Utf8.encodable s.
Proof.
  unfold text_decode. destruct (Utf8.decode bs) as [t|] eqn:Ed; [|done]. intros [= <-].
  apply translate_newlines_Forall; [done|].
  apply Utf8.encodable_scalar, (Utf8.encode_decode bs t Ed).
Qed.

End Newlines.
