(* ===== verification/Filter.v ===== *)
(** * The dbt filter of Cell 3 (lines 25-27)

    [for line in result.stdout.split('\n'):
         if 'dbt' in line.lower(): print(f"  • {line}")]
    as a pure function of the captured standard output: [dbt_lines] is the
    list of lines the loop prints, [bullet_line] the text of one print.
    The theorems are proved for every [CaseMapping], that is for the real
    Unicode tables of [str.lower]. *)

From Stdlib Require Import String NArith ZArith.
From stdpp Require Import base list.
From S2P Require Import Prelude PyStr.

Module Filter.
Import Contains Split Lower.

Section WithCaseMapping.
Context `{CM : CaseMapping}.

(** The loop's condition, line 26. *)
Definition is_dbt_line (line : pystr) : bool :=
  str_contains (lit "dbt") (str_lower line).

(** The lines the loop prints, in the order it prints them. *)
Definition dbt_lines (stdout : pystr) : list pystr :=
  List.filter is_dbt_line (split_char NL stdout).

(** [f"  • {line}"], line 27. *)
Definition bullet_line (line : pystr) : pystr :=
  lit "  " ++ BULLET :: lit " " ++ line.

(** The ASCII-lowered test the condition is equal to. *)
Definition has_dbt_ci (line : pystr) : bool :=
  str_contains (lit "dbt") (map ascii_lower line).

Lemma is_dbt_line_ci (line : pystr) : is_dbt_line line = has_dbt_ci line.
Proof. apply contains_dbt_lower_go. Qed.

Lemma dbt_lines_ci (stdout : pystr) :
  dbt_lines stdout = List.filter has_dbt_ci (split_char NL stdout).
Proof. unfold dbt_lines. apply filter_ext, is_dbt_line_ci. Qed.

(** C17: a line is printed exactly when it is a line of the
    output (a piece of [split('\n')]) with a factor [dD][bB][tT]. *)
Theorem dbt_lines_spec (stdout line : pystr) :
  In line (dbt_lines stdout) <->
  In line (split_char NL stdout) /\
  exists a w z, line = a ++ w ++ z /\ map ascii_lower w = lit "dbt".
Proof.
  unfold dbt_lines. rewrite filter_In, is_dbt_line_ci. f_equiv.
  unfold has_dbt_ci. rewrite str_contains_infix. apply map_factor_iff.
Qed.

(** The printed lines are a subsequence of the lines
    of the output: order is preserved and nothing is invented. *)
Theorem dbt_lines_sublist (stdout : pystr) :
  sublist (dbt_lines stdout) (split_char NL stdout).
Proof. apply filter_sublist_of. Qed.

Lemma dbt_lines_free (stdout : pystr) :
  Forall (fun p => ~ In NL p) (dbt_lines stdout).
Proof.
  unfold dbt_lines. apply Forall_List_filter.
  apply split_char_go_pieces_free. intros [].
Qed.

(** The filter is idempotent: feeding the printed
    lines, joined by newlines, back through it prints them again. *)
Theorem dbt_lines_idempotent (stdout : pystr) :
  dbt_lines (join [NL] (dbt_lines stdout)) = dbt_lines stdout.
Proof.
  destruct (dbt_lines stdout) as [|l ls] eqn:E; [done|].
  unfold dbt_lines at 1. rewrite split_char_join_pieces.
  - rewrite <- E. unfold dbt_lines. apply filter_filter_same.
  - done.
  - rewrite <- E. apply dbt_lines_free.
Qed.
(** The example of spec section 8: of the lines
    "dbt-core 1.7.1", "requests 2.0" and "DBT-Snowflake 1.7.1" the
    filter keeps the first and the third, in that order, whatever the
    Unicode case tables. *)
Theorem dbt_lines_spec_example :
  dbt_lines (join [NL] [lit "dbt-core 1.7.1"; lit "requests 2.0"; lit "DBT-Snowflake 1.7.1"]) =
  [lit "dbt-core 1.7.1"; lit "DBT-Snowflake 1.7.1"].
Proof. rewrite dbt_lines_ci. vm_compute. reflexivity. Qed.
End WithCaseMapping.

End Filter.
