(* ===== verification/Runtime.v ===== *)
(** * The Python runtime the notebook's cells run on

    - [pyval]: the values the cells bind in the notebook's globals (module
      objects, [str], [list] of [str], [subprocess.CompletedProcess]);
    - [pyexc]: the exceptions the cells can raise;
    - [Host]: the interface of the machine the notebook runs on, what
      [subprocess] and [import] ask of it: [sys.executable], running a
      child process to completion with the bytes it wrote, and the
      [__version__] that
      [import dbt.version] finds in the installed packages;
    - [state]: the host, the globals, [sys.modules], the text written to
      [sys.stdout], the trace of the requests made to the host, and the
      log [st_io] of the writes reaching standard output ([IoWrite] for
      [sys.stdout.write], [IoChild] for a child that inherited the
      descriptor, as [check_call]'s does; [subprocess.run] captures);
    - [M]: a state and exception monad with its notation, and the
      primitive operations of the cells: [print], global loads and stores,
      [import], [subprocess.check_call], [subprocess.run] (which decodes
      the captured bytes as [text=True] does, [Codec.Newlines]). *)

From Stdlib Require Import String NArith ZArith.
From stdpp Require Import base list gmap strings.
From S2P Require Import Prelude PyStr Codec.

Module Runtime.
Import Newlines.

(** ** Values and exceptions *)

Inductive pyval :=
| VModule (name : string)
| VStr (s : pystr)
(** a [list] of [str] *)
| VStrList (vs : list pystr)
(** [CompletedProcess(args, returncode, stdout, stderr)] *)
| VCompleted (args : list pystr) (returncode : Z) (stdout stderr : pystr).

Inductive pyexc :=
(** raised by [check_call] for a non-zero exit status *)
| CalledProcessError (returncode : Z) (cmd : list pystr)
(** raised by [import] when the package index has no such module *)
| ModuleNotFoundError (name : string)
(** a global read before any statement bound it *)
| NameError (name : string)
(** an attribute the object does not have *)
| AttributeError (name : string)
(** raised by [Popen] when the child cannot be started *)
| OSError
(** raised by [subprocess.run(..., text=True)] when the child's output
    is not UTF-8 *)
| UnicodeDecodeError.

(** ** The host *)

(** How a child process ended: its exit status and the bytes it wrote on
    its standard output and error, or a failure to start it. *)
Inductive spawn_result :=
| Exited (returncode : Z) (stdout stderr : pybytes)
| SpawnFailed.

Class Host := {
  host_env : Type;
  (** [sys.executable]: fixed when the interpreter starts *)
  executable : pystr;
  (** run [argv] to completion; the child may change the host (pip
      install changes the package index) *)
  spawn : list pystr -> host_env -> spawn_result * host_env;
  (** the [__version__] of [dbt.version] in the installed packages, or
      [None] when [dbt] cannot be found *)
  find_dbt_version : host_env -> option pystr
}.

(** What the notebook asked of the host, in order. *)
Inductive event :=
| EvSpawn (argv : list pystr) (result : spawn_result)
| EvImport (name : string).

(** What reaches the process's standard output, in program order: a
    [write] of [sys.stdout] ([print(x)] writes [x], then ["\n"]), or the
    output of a child that inherited the descriptor. *)
Inductive io_event :=
| IoWrite (text : pystr)
| IoChild (data : pybytes).

(** The text [print] writes for each of [lines], in order, and the writes
    it makes. *)
Definition printed (lines : list pystr) : pystr := concat (map (fun l => l ++ [NL]) lines).
Definition print_events (lines : list pystr) : list io_event :=
  concat (map (fun l => [IoWrite l; IoWrite [NL]]) lines).

Section WithHost.
Context `{H : Host}.

(** ** State *)

Record state := mkState {
  st_env : host_env;
  st_globals : gmap string pyval;
  (** [sys.modules]: each loaded module with its [__version__], if any *)
  st_modules : gmap string (option pystr);
  st_out : pystr;
  st_trace : list event;
  st_io : list io_event
}.

(** ** The monad *)

Definition M (A : Type) : Type := state -> (pyexc + A) * state.

Definition ret {A} (x : A) : M A := fun s => (inr x, s).

Definition bind {A B} (m : M A) (k : A -> M B) : M B :=
  fun s => match m s with
           | (inr x, s') => k x s'
           | (inl e, s') => (inl e, s')
           end.

Definition raise {A} (e : pyexc) : M A := fun s => (inl e, s).

End WithHost.

Arguments M {_} A.

Notation "x <- m ;; k" := (bind m (fun x => k))
  (at level 100, m at next level, right associativity) : py_scope.
Notation "m ;; k" := (bind m (fun _ => k))
  (at level 100, right associativity) : py_scope.
Local Open Scope py_scope.

Section Primitives.
Context `{H : Host}.

(** The state after printing [lines], one [print] each. *)
Definition after_prints (s : state) (lines : list pystr) : state :=
  mkState (st_env s) (st_globals s) (st_modules s) (st_out s ++ printed lines)
    (st_trace s) (st_io s ++ print_events lines).
Definition set_globals (s : state) (g : gmap string pyval) : state :=
  mkState (st_env s) g (st_modules s) (st_out s) (st_trace s) (st_io s).
Definition set_modules (s : state) (m : gmap string (option pystr)) : state :=
  mkState (st_env s) (st_globals s) m (st_out s) (st_trace s) (st_io s).
Definition after_event (s : state) (e : host_env) (ev : event) (io : list io_event) : state :=
  mkState e (st_globals s) (st_modules s) (st_out s) (st_trace s ++ [ev]) (st_io s ++ io).

(** [print(x)]: [x] then the default [end='\n']. *)
Definition py_print (x : pystr) : M unit := fun s => (inr tt, after_prints s [x]).

(** Reading a global: [NameError] when nothing bound it. *)
Definition load_global (x : string) : M pyval :=
  fun s => match st_globals s !! x with
           | Some v => (inr v, s)
           | None => (inl (NameError x), s)
           end.

Definition store_global (x : string) (v : pyval) : M unit :=
  fun s => (inr tt, set_globals s (<[x := v]> (st_globals s))).

(** [import sys], [import subprocess]: modules of the standard library,
    always found; the statement binds the name. *)
Definition import_stdlib (name : string) : M unit :=
  fun s => (inr tt, set_globals (set_modules s (<[name := None]> (st_modules s)))
                                (<[name := VModule name]> (st_globals s))).

(** [import dbt.version]: a module already in [sys.modules] is reused
    without asking the host; otherwise the host's packages decide.  The
    statement binds [dbt]. *)
Definition import_dbt_version : M unit :=
  fun s =>
    match st_modules s !! "dbt.version"%string with
    | Some _ => (inr tt, set_globals s (<["dbt" := VModule "dbt"]> (st_globals s)))
    | None =>
        let s1 := after_event s (st_env s) (EvImport "dbt.version") [] in
        match find_dbt_version (st_env s) with
        | None => (inl (ModuleNotFoundError "dbt"), s1)
        | Some v =>
            (inr tt,
             set_globals
               (set_modules s1 (<["dbt.version" := Some v]> (<["dbt" := None]> (st_modules s1))))
               (<["dbt" := VModule "dbt"]> (st_globals s1)))
        end
    end%string.

(** [dbt.version.__version__] *)
Definition dbt_version_attr : M pystr :=
  v <- load_global "dbt" ;;
  fun s =>
    match v, st_modules s !! "dbt.version"%string with
    | VModule "dbt", Some (Some ver) => (inr ver, s)
    | VModule "dbt", _ => (inl (AttributeError "version"), s)
    | _, _ => (inl (AttributeError "version"), s)
    end.

(** [sys.executable] *)
Definition sys_executable : M pystr :=
  v <- load_global "sys" ;;
  fun s =>
    match v with
    | VModule "sys" => (inr executable, s)
    | _ => (inl (AttributeError "executable"), s)
    end%string.

(** [subprocess.check_call], [subprocess.run]: the attribute [a] of
    what [subprocess] is bound to, looked up before the call's arguments
    are evaluated; [AttributeError] unless it is the module. *)
Definition subprocess_attr (a : string) : M unit :=
  v <- load_global "subprocess" ;;
  fun s =>
    match v with
    | VModule "subprocess" => (inr tt, s)
    | _ => (inl (AttributeError a), s)
    end%string.

(** What a child writes on the descriptor it inherited. *)
Definition child_io (inherit : bool) (r : spawn_result) : list io_event :=
  match inherit, r with
  | true, Exited _ out _ => [IoChild out]
  | _, _ => []
  end.

(** Running a child: the host answers and is updated, the request is
    traced; a child that inherits standard output writes on it directly. *)
Definition run_child (inherit : bool) (argv : list pystr) : M spawn_result :=
  fun s =>
    let '(r, e') := spawn argv (st_env s) in
    (inr r, after_event s e' (EvSpawn argv r) (child_io inherit r)).

(** [subprocess.check_call(argv)]: [0], or [CalledProcessError] for a
    non-zero status; [OSError] when the child cannot start. *)
Definition check_call (argv : list pystr) : M Z :=
  r <- run_child true argv ;;
  match r with
  | SpawnFailed => raise OSError
  | Exited rc _ _ => if (rc =? 0)%Z then ret 0%Z else raise (CalledProcessError rc argv)
  end.

(** [subprocess.run(argv, capture_output=True, text=True)]: no check of
    the status; [communicate] decodes the captured stdout, then stderr,
    with universal newlines. *)
Definition subprocess_run (argv : list pystr) : M pyval :=
  r <- run_child false argv ;;
  match r with
  | SpawnFailed => raise OSError
  | Exited rc out err =>
      match text_decode out, text_decode err with
      | Some o, Some e => ret (VCompleted argv rc o e)
      | _, _ => raise UnicodeDecodeError
      end
  end.

(** [for x in xs: body(x)], binding the loop variable [name]. *)
Fixpoint py_for {A} (name : string) (inj : A -> pyval) (xs : list A)
  (body : A -> M unit) : M unit :=
  match xs with
  | [] => ret tt
  | x :: xs' => store_global name (inj x) ;; body x ;; py_for name inj xs' body
  end.

End Primitives.

(** ** Equations of the monad and of the primitives *)

Section Laws.
Context `{H : Host}.

Lemma bind_ret {A B} (x : A) (k : A -> M B) s : bind (ret x) k s = k x s.
Proof. done. Qed.

Lemma bind_assoc {A B C} (m : M A) (f : A -> M B) (g : B -> M C) s :
  bind (bind m f) g s = bind m (fun x => bind (f x) g) s.
Proof. unfold bind. by destruct (m s) as [[e|x] s']. Qed.

Lemma bind_inl {A B} (m : M A) (k : A -> M B) s e s' :
  m s = (inl e, s') -> bind m k s = (inl e, s').
Proof. unfold bind. by intros ->. Qed.

Lemma bind_inr {A B} (m : M A) (k : A -> M B) s x s' :
  m s = (inr x, s') -> bind m k s = k x s'.
Proof. unfold bind. by intros ->. Qed.

Lemma printed_app l1 l2 : printed (l1 ++ l2) = printed l1 ++ printed l2.
Proof. unfold printed. by rewrite map_app, concat_app. Qed.

Lemma printed_one l : printed [l] = l ++ [NL].
Proof. unfold printed. simpl. by rewrite app_nil_r. Qed.

Lemma print_events_app l1 l2 : print_events (l1 ++ l2) = print_events l1 ++ print_events l2.
Proof. unfold print_events. by rewrite map_app, concat_app. Qed.

Lemma after_prints_app s l1 l2 : after_prints (after_prints s l1) l2 = after_prints s (l1 ++ l2).
Proof.
  destruct s. unfold after_prints. simpl.
  by rewrite printed_app, print_events_app, !app_assoc.
Qed.

Lemma after_prints_nil s : after_prints s [] = s.
Proof. destruct s. unfold after_prints. simpl. by rewrite !app_nil_r. Qed.

Lemma set_globals_after_prints s l g :
  set_globals (after_prints s l) g = after_prints (set_globals s g) l.
Proof. done. Qed.

Lemma st_globals_after_prints s l : st_globals (after_prints s l) = st_globals s.
Proof. done. Qed.

Lemma set_globals_twice s g1 g2 : set_globals (set_globals s g1) g2 = set_globals s g2.
Proof. done. Qed.

Lemma bind_py_print {A} x (k : unit -> M A) s :
  bind (py_print x) k s = k tt (after_prints s [x]).
Proof. done. Qed.

Lemma py_print_eq x s : py_print x s = (inr tt, after_prints s [x]).
Proof. done. Qed.

Lemma bind_store_global {A} x v (k : unit -> M A) s :
  bind (store_global x v) k s = k tt (set_globals s (<[x := v]> (st_globals s))).
Proof. done. Qed.

Lemma bind_import_stdlib {A} name (k : unit -> M A) s :
  bind (import_stdlib name) k s =
  k tt (set_globals (set_modules s (<[name := None]> (st_modules s)))
                    (<[name := VModule name]> (st_globals s))).
Proof. done. Qed.

Lemma bind_load_global_some {A} x v (k : pyval -> M A) s :
  st_globals s !! x = Some v -> bind (load_global x) k s = k v s.
Proof. unfold bind, load_global. by intros ->. Qed.

Lemma bind_load_global_none {A} x (k : pyval -> M A) s :
  st_globals s !! x = None -> bind (load_global x) k s = (inl (NameError x), s).
Proof. unfold bind, load_global. by intros ->. Qed.

Lemma bind_sys_executable {A} (k : pystr -> M A) s :
  st_globals s !! "sys"%string = Some (VModule "sys") ->
  bind sys_executable k s = k executable s.
Proof. intros Hs. cbv [bind sys_executable load_global]. by rewrite Hs. Qed.

Lemma bind_subprocess_attr {A} a (k : unit -> M A) s :
  st_globals s !! "subprocess"%string = Some (VModule "subprocess") ->
  bind (subprocess_attr a) k s = k tt s.
Proof. intros Hs. cbv [bind subprocess_attr load_global]. by rewrite Hs. Qed.

Lemma bind_run_child {A} inherit argv (k : spawn_result -> M A) s r e' :
  spawn argv (st_env s) = (r, e') ->
  bind (run_child inherit argv) k s =
  k r (after_event s e' (EvSpawn argv r) (child_io inherit r)).
Proof. unfold bind, run_child. by intros ->. Qed.

Lemma bind_import_dbt_version_cached {A} (k : unit -> M A) s c :
  st_modules s !! "dbt.version"%string = Some c ->
  bind import_dbt_version k s =
  k tt (set_globals s (<["dbt" := VModule "dbt"]> (st_globals s)))%string.
Proof. intros Hc. cbv [bind import_dbt_version]. by rewrite Hc. Qed.

Lemma bind_import_dbt_version_found {A} (k : unit -> M A) s v :
  st_modules s !! "dbt.version"%string = None ->
  find_dbt_version (st_env s) = Some v ->
  bind import_dbt_version k s =
  k tt (mkState (st_env s) (<["dbt" := VModule "dbt"]> (st_globals s))
          (<["dbt.version" := Some v]> (<["dbt" := None]> (st_modules s)))
          (st_out s) (st_trace s ++ [EvImport "dbt.version"]) (st_io s))%string.
Proof.
  intros Hc Hv. cbv [bind import_dbt_version]. rewrite Hc, Hv.
  cbv [set_globals set_modules after_event]. simpl. by rewrite app_nil_r.
Qed.

Lemma bind_import_dbt_version_missing {A} (k : unit -> M A) s :
  st_modules s !! "dbt.version"%string = None ->
  find_dbt_version (st_env s) = None ->
  bind import_dbt_version k s =
  (inl (ModuleNotFoundError "dbt"),
   after_event s (st_env s) (EvImport "dbt.version") [])%string.
Proof. intros Hc Hv. cbv [bind import_dbt_version]. by rewrite Hc, Hv. Qed.

Lemma bind_dbt_version_attr {A} (k : pystr -> M A) s ver :
  st_globals s !! "dbt"%string = Some (VModule "dbt") ->
  st_modules s !! "dbt.version"%string = Some (Some ver) ->
  bind dbt_version_attr k s = k ver s.
Proof. intros Hg Hm. cbv [bind dbt_version_attr load_global]. by rewrite Hg, Hm. Qed.

Lemma bind_check_call {A} argv (k : Z -> M A) s r e' :
  spawn argv (st_env s) = (r, e') ->
  bind (check_call argv) k s =
  let s' := after_event s e' (EvSpawn argv r) (child_io true r) in
  match r with
  | SpawnFailed => (inl OSError, s')
  | Exited rc _ _ =>
      if (rc =? 0)%Z then k 0%Z s' else (inl (CalledProcessError rc argv), s')
  end.
Proof.
  intros Hsp. unfold check_call. rewrite bind_assoc.
  erewrite bind_run_child by exact Hsp.
  by destruct r as [rc ? ?|]; [destruct (rc =? 0)%Z|].
Qed.

Lemma bind_subprocess_run {A} argv (k : pyval -> M A) s r e' :
  spawn argv (st_env s) = (r, e') ->
  bind (subprocess_run argv) k s =
  let s' := after_event s e' (EvSpawn argv r) [] in
  match r with
  | SpawnFailed => (inl OSError, s')
  | Exited rc out err =>
      match text_decode out, text_decode err with
      | Some o, Some e => k (VCompleted argv rc o e) s'
      | _, _ => (inl UnicodeDecodeError, s')
      end
  end.
Proof.
  intros Hsp. unfold subprocess_run. rewrite bind_assoc.
  erewrite bind_run_child by exact Hsp.
  destruct r as [rc out err|]; [|done]. simpl.
  by destruct (text_decode out), (text_decode err).
Qed.

(** A loop whose body only prints: the loop variable is bound to each
    element in turn, and the lines are printed in order. *)
Lemma py_for_prints name xs (body : pystr -> M unit) (lines : pystr -> list pystr) s :
  (forall x s', body x s' = (inr tt, after_prints s' (lines x))) ->
  py_for name VStr xs body s =
  (inr tt, after_prints (set_globals s (fold_left (fun g x => <[name := VStr x]> g) xs (st_globals s)))
             (concat (map lines xs))).
Proof.
  intros Hbody. revert s. induction xs as [|x xs IH]; intros s.
  - simpl. rewrite after_prints_nil. by destruct s.
  - simpl py_for. rewrite bind_store_global. cbv beta.
    erewrite bind_inr by apply Hbody. rewrite IH. simpl.
    by rewrite set_globals_after_prints, after_prints_app.
Qed.

End Laws.

#[export] Hint Rewrite @bind_ret @bind_py_print @py_print_eq @bind_store_global
  @bind_import_stdlib @set_globals_after_prints @st_globals_after_prints @after_prints_app
  @set_globals_twice : pyrw.

(** One step of a program: the equation of its first primitive, then the
    continuation applied. *)
Ltac py_step :=
  first [ rewrite bind_ret
        | rewrite bind_py_print
        | rewrite py_print_eq
        | rewrite bind_store_global
        | rewrite bind_import_stdlib
        | erewrite bind_load_global_some; [|simpl; simplify_map_eq; reflexivity]
        | rewrite bind_sys_executable by (simpl; by simplify_map_eq)
        | rewrite bind_subprocess_attr by (simpl; by simplify_map_eq)
        | erewrite bind_dbt_version_attr;
            [| simpl; simplify_map_eq; reflexivity | simpl; simplify_map_eq; reflexivity] ];
  cbv beta iota.

End Runtime.
