(* ===== verification/Cells.v ===== *)
(** * The six cells of the notebook as programs of the runtime monad

    Each cell is translated statement by statement, in Python's order of
    evaluation: a call [subprocess.f(args)] first reads the global
    [subprocess], then evaluates [args] (reading [sys] for
    [sys.executable]), then calls.  The literal texts are [Definition]s of
    their own so that the theorems can name them. *)

From Stdlib Require Import String NArith ZArith.
From stdpp Require Import base list gmap strings.
From S2P Require Import Prelude PyStr Codec Filter Runtime.

Module Cells.
Import Split Lower Repeat Newlines Filter Runtime.
Local Open Scope py_scope.

(** ** Literal texts *)

(** line 10 *)
Definition msg_installing : pystr := lit "Installing dbt-snowflake...".
(** line 11 *)
Definition install_argv (exe : pystr) : list pystr :=
  [exe; lit "-m"; lit "pip"; lit "install"; lit "dbt-snowflake==1.7.1"; lit "-q"].
(** line 12 *)
Definition msg_installed : pystr :=
  WHITE_HEAVY_CHECK_MARK :: lit " dbt-snowflake installed successfully!".
(** line 16 *)
Definition version_line (v : pystr) : pystr := lit "dbt version: " ++ v.
(** line 19 *)
Definition hdr_installed : pystr :=
  NL :: PACKAGE :: lit " Installed dbt-related packages:".
(** line 21 *)
Definition list_argv (exe : pystr) : list pystr := [exe; lit "-m"; lit "pip"; lit "list"].
(** line 30 *)
Definition hdr_configured : pystr :=
  NL :: CLIPBOARD :: lit " dbt Packages configured in project:".
(** lines 31-35: the triple-quoted string starts and ends with a newline *)
Definition packages_content : pystr :=
  NL :: lit "packages:" ++ NL :: lit "  - package: dbt-labs/dbt_utils" ++
  NL :: lit "    version: 1.1.1" ++ [NL].
(** line 39 *)
Definition hdr_details : pystr :=
  NL :: LEFT_MAGNIFYING_GLASS :: lit " dbt Package Details:".
(** lines 40 and 45 *)
Definition rule : pystr := str_mul (lit "=") 60.
(** lines 41-44 *)
Definition details : list pystr :=
  [lit "Package: dbt-labs/dbt_utils"; lit "Version: 1.1.1";
   lit "Description: Utility macros for dbt projects";
   lit "Repository: https://github.com/dbt-labs/dbt-utils"].
(** line 48 *)
Definition hdr_commands : pystr :=
  NL :: PERSONAL_COMPUTER :: lit " Available dbt commands:".
(** lines 49-57 *)
Definition commands : list pystr :=
  [lit "dbt debug - Test database connection";
   lit "dbt deps - Install package dependencies";
   lit "dbt seed - Load CSV files";
   lit "dbt run - Execute models";
   lit "dbt test - Run data tests";
   lit "dbt docs generate - Create documentation";
   lit "dbt build - Run everything"].
(** line 61 *)
Definition msg_complete : pystr :=
  NL :: WHITE_HEAVY_CHECK_MARK :: lit " Notebook execution complete!".

Section WithHost.
Context `{H : Host} `{CM : CaseMapping}.

(** ** The cells *)

(** Cell 1, lines 7-12. *)
Definition cell1 : M unit :=
  import_stdlib "sys" ;;
  import_stdlib "subprocess" ;;
  py_print msg_installing ;;
  subprocess_attr "check_call" ;;
  exe <- sys_executable ;;
  _ <- check_call (install_argv exe) ;;
  py_print msg_installed.

(** Cell 2, lines 15-16. *)
Definition cell2 : M unit :=
  import_dbt_version ;;
  v <- dbt_version_attr ;;
  py_print (version_line v).

(** [result.stdout] *)
Definition result_stdout : M pystr :=
  r <- load_global "result" ;;
  match r with
  | VCompleted _ _ out _ => ret out
  | _ => raise (AttributeError "stdout")
  end.

(** The body of the loop of lines 25-27. *)
Definition cell3_body (line : pystr) : M unit :=
  if is_dbt_line line then py_print (bullet_line line) else ret tt.

(** Cell 3, lines 19-27. *)
Definition cell3 : M unit :=
  py_print hdr_installed ;;
  subprocess_attr "run" ;;
  exe <- sys_executable ;;
  r <- subprocess_run (list_argv exe) ;;
  store_global "result" r ;;
  out <- result_stdout ;;
  py_for "line" VStr (split_char NL out) cell3_body.

(** Cell 4, lines 30-36. *)
Definition cell4 : M unit :=
  py_print hdr_configured ;;
  store_global "packages_content" (VStr packages_content) ;;
  py_print packages_content.

(** Cell 5, lines 39-45. *)
Definition cell5 : M unit :=
  py_print hdr_details ;;
  py_print rule ;;
  py_print (lit "Package: dbt-labs/dbt_utils") ;;
  py_print (lit "Version: 1.1.1") ;;
  py_print (lit "Description: Utility macros for dbt projects") ;;
  py_print (lit "Repository: https://github.com/dbt-labs/dbt-utils") ;;
  py_print rule.

(** Cell 6, lines 48-61. *)
Definition cell6 : M unit :=
  py_print hdr_commands ;;
  store_global "commands" (VStrList commands) ;;
  py_for "cmd" VStr commands (fun cmd => py_print (bullet_line cmd)) ;;
  py_print msg_complete.

(** ** What each cell does, on every branch *)

Definition globals_after_imports (g : gmap string pyval) : gmap string pyval :=
  <["subprocess" := VModule "subprocess"]> (<["sys" := VModule "sys"]> g)%string.
Definition modules_after_imports (m : gmap string (option pystr)) :=
  <["subprocess" := None]> (<["sys" := None]> m)%string.
(** The state after [import sys] and [import subprocess]. *)
Definition after_imports (s : state) : state :=
  set_globals (set_modules s (modules_after_imports (st_modules s)))
    (globals_after_imports (st_globals s)).

Lemma cell1_spec s :
  cell1 s =
  let argv := install_argv executable in
  let '(r, e') := spawn argv (st_env s) in
  let s1 := after_event (after_prints (after_imports s) [msg_installing]) e'
              (EvSpawn argv r) (child_io true r) in
  match r with
  | SpawnFailed => (inl OSError, s1)
  | Exited rc _ _ =>
      if (rc =? 0)%Z then (inr tt, after_prints s1 [msg_installed])
      else (inl (CalledProcessError rc argv), s1)
  end.
Proof.
  destruct s as [env g m out tr io]. unfold cell1.
  do 5 py_step. simpl.
  destruct (spawn (install_argv executable) env) as [r e'] eqn:Hsp.
  erewrite bind_check_call by exact Hsp.
  destruct r as [rc o e|]; [destruct (Z.eqb_spec rc 0)|]; reflexivity.
Qed.

(** The three outcomes of [import dbt.version] followed by the print. *)
Lemma cell2_cached s ver :
  st_modules s !! "dbt.version"%string = Some (Some ver) ->
  cell2 s = (inr tt, after_prints (set_globals s (<["dbt" := VModule "dbt"]> (st_globals s)))
                       [version_line ver])%string.
Proof.
  intros Hm. unfold cell2.
  erewrite bind_import_dbt_version_cached by exact Hm. cbv beta.
  rewrite bind_dbt_version_attr with (ver := ver) by (simpl; by simplify_map_eq).
  done.
Qed.

Lemma cell2_found s v :
  st_modules s !! "dbt.version"%string = None ->
  find_dbt_version (st_env s) = Some v ->
  cell2 s = (inr tt, after_prints
                       (mkState (st_env s) (<["dbt" := VModule "dbt"]> (st_globals s))
                          (<["dbt.version" := Some v]> (<["dbt" := None]> (st_modules s)))
                          (st_out s) (st_trace s ++ [EvImport "dbt.version"]) (st_io s))
                       [version_line v])%string.
Proof.
  intros Hm Hv. unfold cell2.
  erewrite bind_import_dbt_version_found by eassumption. cbv beta.
  rewrite bind_dbt_version_attr with (ver := v) by (simpl; by simplify_map_eq).
  done.
Qed.

Lemma cell2_missing s :
  st_modules s !! "dbt.version"%string = None ->
  find_dbt_version (st_env s) = None ->
  cell2 s = (inl (ModuleNotFoundError "dbt"),
             after_event s (st_env s) (EvImport "dbt.version") [])%string.
Proof.
  intros Hm Hv. unfold cell2. by apply bind_import_dbt_version_missing.
Qed.

(** The loop of lines 25-27 prints the bullet lines of the kept lines. *)
Lemma concat_map_kept (p : pystr -> bool) (f : pystr -> pystr) xs :
  concat (map (fun x => if p x then [f x] else []) xs) = map f (List.filter p xs).
Proof.
  induction xs as [|x xs IH]; [done|]. simpl.
  destruct (p x); simpl; by rewrite IH.
Qed.

Lemma cell3_body_prints x s :
  cell3_body x s = (inr tt, after_prints s (if is_dbt_line x then [bullet_line x] else [])).
Proof.
  unfold cell3_body. destruct (is_dbt_line x); [done|]. by rewrite after_prints_nil.
Qed.

(** The bindings the loop of lines 25-27 leaves. *)
Definition loop_globals (name : string) (xs : list pystr) (g : gmap string pyval) :=
  fold_left (fun g x => <[name := VStr x]> g) xs g.

(** After a [for] loop over a non-empty list the target stays bound to
    the last item. *)
Lemma loop_globals_nonempty name xs d g :
  xs <> [] -> loop_globals name xs g = <[name := VStr (List.last xs d)]> g.
Proof.
  intros Hne. revert g. induction xs as [|x xs IH]; intros g; [done|].
  unfold loop_globals. simpl. fold (loop_globals name xs (<[name := VStr x]> g)).
  destruct xs as [|y ys]; [done|].
  rewrite IH by done. by rewrite insert_insert_eq.
Qed.

Lemma cell3_spec s :
  st_globals s !! "subprocess"%string = Some (VModule "subprocess") ->
  st_globals s !! "sys"%string = Some (VModule "sys") ->
  cell3 s =
  let argv := list_argv executable in
  let '(r, e') := spawn argv (st_env s) in
  let s1 := after_event (after_prints s [hdr_installed]) e' (EvSpawn argv r) [] in
  match r with
  | SpawnFailed => (inl OSError, s1)
  | Exited rc out err =>
      match text_decode out, text_decode err with
      | Some o, Some e =>
          (inr tt,
           after_prints
             (set_globals s1 (loop_globals "line" (split_char NL o)
                                (<["result" := VCompleted argv rc o e]> (st_globals s))))
             (map bullet_line (dbt_lines o)))
      | _, _ => (inl UnicodeDecodeError, s1)
      end
  end.
Proof.
  intros Hsub Hsys. destruct s as [env g m o tr io]. simpl in *. unfold cell3.
  py_step. rewrite bind_subprocess_attr by exact Hsub. cbv beta.
  rewrite bind_sys_executable by exact Hsys. simpl.
  destruct (spawn (list_argv executable) env) as [r e'] eqn:Hsp.
  erewrite bind_subprocess_run by exact Hsp.
  destruct r as [rc out err|]; [|done]. simpl.
  destruct (text_decode out) as [o'|], (text_decode err) as [e|]; try done.
  py_step. unfold result_stdout. rewrite bind_assoc. py_step. py_step.
  rewrite (py_for_prints _ _ _ (fun x => if is_dbt_line x then [bullet_line x] else []))
    by apply cell3_body_prints.
  by rewrite concat_map_kept.
Qed.

Lemma cell3_no_subprocess s :
  st_globals s !! "subprocess"%string = None ->
  cell3 s = (inl (NameError "subprocess"), after_prints s [hdr_installed]).
Proof.
  intros Hsub. unfold cell3. py_step. cbv [subprocess_attr]. rewrite bind_assoc.
  by rewrite bind_load_global_none.
Qed.

(** C16: Cell 3 prints the same lines whichever line ends
    [pip list] used: when it writes the UTF-8 bytes of a text [t] with
    every newline as ["\r\n"], [text=True] hands Cell 3 the text [t]
    itself, and Cell 3 prints its header and the bullet line of each
    piece of [t.split('\n')] containing [dbt], with no ["\r"] left at the
    end of a line. *)
Theorem cell3_crlf_output s rc t out err err_t e' :
  st_globals s !! "subprocess"%string = Some (VModule "subprocess") ->
  st_globals s !! "sys"%string = Some (VModule "sys") ->
  Forall (fun c => Utf8.is_scalar c = true) t -> ~ In CR t ->
  Utf8.encode (Replace.str_replace [NL] [CR; NL] t) = Some out ->
  spawn (list_argv executable) (st_env s) = (Exited rc out err, e') ->
  text_decode err = Some err_t ->
  exists s', cell3 s = (inr tt, s') /\
    st_out s' = st_out s ++ printed (hdr_installed :: map bullet_line (dbt_lines t)).
Proof.
  intros Hsub Hsys Hsc Hcr He Hsp Herr. rewrite cell3_spec by done. cbv zeta.
  rewrite Hsp, (text_decode_crlf t out), Herr by done.
  eexists. split; [reflexivity|]. simpl. by rewrite <- app_assoc, <- printed_app.
Qed.

Definition cell5_lines : list pystr := [hdr_details; rule] ++ details ++ [rule].
Definition cell6_lines : list pystr := hdr_commands :: map bullet_line commands ++ [msg_complete].

Lemma cell4_spec s :
  cell4 s = (inr tt, after_prints
                       (set_globals s (<["packages_content" := VStr packages_content]> (st_globals s)))
                       [hdr_configured; packages_content])%string.
Proof. unfold cell4. by autorewrite with pyrw using cbv beta. Qed.

Lemma cell5_spec s : cell5 s = (inr tt, after_prints s cell5_lines).
Proof. unfold cell5. by autorewrite with pyrw using cbv beta. Qed.

Lemma cell6_spec s :
  cell6 s = (inr tt, after_prints
                       (set_globals s (loop_globals "cmd" commands
                                         (<["commands" := VStrList commands]> (st_globals s))))
                       cell6_lines)%string.
Proof.
  unfold cell6. do 2 py_step.
  erewrite bind_inr by (apply (py_for_prints _ _ _ (fun x => [bullet_line x])); done).
  by autorewrite with pyrw using cbv beta.
Qed.

End WithHost.

(** Texts appended print by print, against [printed] of the lines. *)
Ltac solve_printed :=
  rewrite <- ?app_assoc, <- ?printed_app, <- ?print_events_app; reflexivity.

Section Static.
Context `{H : Host} `{CM : CaseMapping}.

(** C15: Cells 4-6 never raise and leave the host, [sys.modules] and
    the trace untouched; in every state they append the same text: the
    packages.yml block, the details framed by two rules of 60 ['='], and
    the seven commands, debug to build, each with its bullet, then the
    completion line. *)
Theorem static_cells_output s :
  exists s', (cell4 ;; cell5 ;; cell6) s = (inr tt, s') /\
    st_env s' = st_env s /\ st_modules s' = st_modules s /\ st_trace s' = st_trace s /\
    st_out s' = st_out s ++ printed ([hdr_configured; packages_content] ++ cell5_lines ++
                                     hdr_commands :: map bullet_line commands ++ [msg_complete]) /\
    length rule = 60 /\
    commands = map (fun c => lit "dbt " ++ c)
                 [lit "debug - Test database connection"; lit "deps - Install package dependencies";
                  lit "seed - Load CSV files"; lit "run - Execute models";
                  lit "test - Run data tests"; lit "docs generate - Create documentation";
                  lit "build - Run everything"].
Proof.
  erewrite bind_inr by apply cell4_spec. erewrite bind_inr by apply cell5_spec.
  rewrite cell6_spec. eexists. split; [reflexivity|]. simpl.
  do 3 (split; [done|]). split; [unfold cell6_lines; solve_printed|].
  split; reflexivity.
Qed.

End Static.

(** Witness of [cell3_crlf_output]: [pip list] writes one line with a
    Windows line end. *)
Module CrlfWitness.
#[local] Instance h : Host := {|
  host_env := unit;
  executable := lit "python3";
  spawn _ e := (Exited 0 (lit "dbt-core 1.7.1" ++ [Newlines.CR; NL]) [], e);
  find_dbt_version _ := None
|}.
#[local] Existing Instance ascii_case_mapping.
Definition s0 : state :=
  mkState tt (<["sys" := VModule "sys"]> (<["subprocess" := VModule "subprocess"]> ∅))%string
    ∅ [] [] [].

Lemma cell3_crlf_output_witness :
  exists s', cell3 s0 = (inr tt, s') /\
    st_out s' = st_out s0 ++ printed (hdr_installed :: map bullet_line
                                        (dbt_lines (lit "dbt-core 1.7.1" ++ [NL]))).
Proof.
  apply (cell3_crlf_output s0 0 (lit "dbt-core 1.7.1" ++ [NL])
           (lit "dbt-core 1.7.1" ++ [Newlines.CR; NL]) [] [] tt);
    [reflexivity|reflexivity|repeat constructor|
     intros Hin; vm_compute in Hin; intuition congruence|reflexivity..].
Defined.
End CrlfWitness.

End Cells.
