(* ===== verification/Notebook.v ===== *)
(** * The notebook run top to bottom, and the spec's Reporter contract

    [run_notebook] runs Cells 1-6 in order, stopping at the first
    exception, as executing the file as a script does.  [Reporter] is the
    contract of spec section 4.1 written as a function of the host's
    three answers (the status of [pip install], the version [import]
    finds, the text [pip list] prints); [run_notebook_refines_reporter]
    shows the code implements it.  The other theorems state which host
    requests are made, in which order, and what is printed when a step
    fails. *)

From Stdlib Require Import String NArith ZArith.
From stdpp Require Import base list gmap strings.
From S2P Require Import Prelude PyStr Codec Filter Runtime Cells.

Module Notebook.
Import Contains Split Lower Newlines Filter Runtime Cells.
Local Open Scope py_scope.

(** ** The contract of spec section 4.1 *)

Module Reporter.
Inductive verdict := Completed | Halted.

(** Step 3 as the spec words it: the lines of the listing whose
    lowercase form contains "dbt", in order. *)
Definition listed (listing : pystr) : list pystr :=
  List.filter (fun l => str_contains (lit "dbt") (map ascii_lower l)) (split_char NL listing).

(** Steps 4-6 and the completion message. *)
Definition static_lines : list pystr :=
  [hdr_configured; packages_content] ++ cell5_lines ++ cell6_lines.

(** The verdict and the printed lines: a failing install or version
    step halts the sequence. *)
Definition reporter (install_status : Z) (version : option pystr) (listing : pystr)
  : verdict * list pystr :=
  if negb (install_status =? 0)%Z then (Halted, [msg_installing])
  else match version with
       | None => (Halted, [msg_installing; msg_installed])
       | Some v =>
           (Completed,
            [msg_installing; msg_installed; version_line v; hdr_installed] ++
            map bullet_line (listed listing) ++ static_lines)
       end.
End Reporter.

Section WithHost.
Context `{H : Host} `{CM : CaseMapping}.

(** The cells in order; the first exception ends the run. *)
Definition run_notebook : M unit :=
  cell1 ;; cell2 ;; cell3 ;; cell4 ;; cell5 ;; cell6.

(** A kernel that has run nothing yet. *)
Definition fresh (env : host_env) : state := mkState env ∅ ∅ [] [] [].

Lemma modules_after_imports_dbt m :
  modules_after_imports m !! "dbt.version"%string = m !! "dbt.version"%string.
Proof. unfold modules_after_imports. by simplify_map_eq. Qed.

(** Cell 1 succeeds. *)
Lemma cell1_ok s o e env1 :
  spawn (install_argv executable) (st_env s) = (Exited 0 o e, env1) ->
  cell1 s = (inr tt,
    after_prints (after_event (after_prints (after_imports s) [msg_installing]) env1
                    (EvSpawn (install_argv executable) (Exited 0 o e)) [IoChild o])
      [msg_installed]).
Proof. intros Hsp. rewrite cell1_spec. cbv zeta. by rewrite Hsp. Qed.

(** The run when pip install fails. *)
Lemma run_halts_at_install s rc o e env1 :
  spawn (install_argv executable) (st_env s) = (Exited rc o e, env1) ->
  rc <> 0%Z ->
  exists s', run_notebook s = (inl (CalledProcessError rc (install_argv executable)), s') /\
    st_out s' = st_out s ++ printed [msg_installing] /\
    st_trace s' = st_trace s ++ [EvSpawn (install_argv executable) (Exited rc o e)] /\
    st_io s' = st_io s ++ print_events [msg_installing] ++ [IoChild o].
Proof.
  intros Hsp Hrc. unfold run_notebook. eexists. split.
  - apply bind_inl. rewrite cell1_spec. cbv zeta. rewrite Hsp. cbv beta iota zeta.
    by destruct (Z.eqb_spec rc 0).
  - simpl. by rewrite <- app_assoc.
Qed.

(** The run when import dbt.version fails. *)
Lemma run_halts_at_import s o e env1 :
  spawn (install_argv executable) (st_env s) = (Exited 0 o e, env1) ->
  st_modules s !! "dbt.version"%string = None ->
  find_dbt_version env1 = None ->
  exists s', run_notebook s = (inl (ModuleNotFoundError "dbt"), s') /\
    st_out s' = st_out s ++ printed [msg_installing; msg_installed] /\
    st_trace s' = st_trace s ++ [EvSpawn (install_argv executable) (Exited 0 o e);
                                 EvImport "dbt.version"].
Proof.
  intros Hsp Hm Hv. unfold run_notebook.
  erewrite bind_inr by (apply cell1_ok; exact Hsp).
  eexists. split.
  - apply bind_inl. apply cell2_missing; [simpl; by rewrite modules_after_imports_dbt | exact Hv].
  - simpl. split; solve_printed.
Qed.

(** The run when install and import succeed. *)
Lemma run_completes s o e env1 v rc2 out_b err_b listing err env2 :
  spawn (install_argv executable) (st_env s) = (Exited 0 o e, env1) ->
  st_modules s !! "dbt.version"%string = None ->
  find_dbt_version env1 = Some v ->
  spawn (list_argv executable) env1 = (Exited rc2 out_b err_b, env2) ->
  text_decode out_b = Some listing -> text_decode err_b = Some err ->
  exists s', run_notebook s = (inr tt, s') /\
    st_out s' = st_out s ++ printed ([msg_installing; msg_installed; version_line v;
                                      hdr_installed] ++ map bullet_line (dbt_lines listing) ++
                                     Reporter.static_lines) /\
    st_trace s' = st_trace s ++ [EvSpawn (install_argv executable) (Exited 0 o e);
                                 EvImport "dbt.version";
                                 EvSpawn (list_argv executable) (Exited rc2 out_b err_b)] /\
    st_io s' = st_io s ++ print_events [msg_installing] ++
               IoChild o :: print_events ([msg_installed; version_line v; hdr_installed] ++
                                          map bullet_line (dbt_lines listing) ++
                                          Reporter.static_lines) /\
    st_globals s' =
      loop_globals "cmd" commands (<["commands" := VStrList commands]>
        (<["packages_content" := VStr packages_content]>
          (loop_globals "line" (split_char NL listing)
            (<["result" := VCompleted (list_argv executable) rc2 listing err]>
              (<["dbt" := VModule "dbt"]> (globals_after_imports (st_globals s)))))))%string.
Proof.
  intros Hsp Hm Hv Hl Hdo Hde. unfold run_notebook.
  erewrite bind_inr by (apply cell1_ok; exact Hsp).
  erewrite bind_inr by (apply cell2_found; [simpl; by rewrite modules_after_imports_dbt | exact Hv]).
  erewrite bind_inr
    by (rewrite cell3_spec by (simpl; unfold globals_after_imports; by simplify_map_eq);
        cbv zeta; simpl; rewrite Hl, Hdo, Hde; reflexivity).
  erewrite bind_inr by apply cell4_spec.
  erewrite bind_inr by apply cell5_spec.
  rewrite cell6_spec. eexists. split; [reflexivity|]. simpl.
  unfold Reporter.static_lines. split; [|split; [|split]]; [solve_printed..|done].
Qed.

(** C1: the run implements the spec's Reporter: for every
    answer of the host (install status, version found or not, listing
    text) it prints exactly the Reporter's lines, and it completes
    exactly when the Reporter's verdict is [Completed].  In particular
    the code's [line.lower()] and ['dbt' in ...] select the lines the
    spec's case-insensitive match selects. *)
Theorem run_notebook_refines_reporter s rc o e env1 rc2 out_b err_b listing err env2 :
  spawn (install_argv executable) (st_env s) = (Exited rc o e, env1) ->
  st_modules s !! "dbt.version"%string = None ->
  spawn (list_argv executable) env1 = (Exited rc2 out_b err_b, env2) ->
  text_decode out_b = Some listing -> text_decode err_b = Some err ->
  let '(verdict, lines) := Reporter.reporter rc (find_dbt_version env1) listing in
  st_out (snd (run_notebook s)) = st_out s ++ printed lines /\
  (verdict = Reporter.Completed <-> fst (run_notebook s) = inr tt).
Proof.
  intros Hsp Hm Hl Hdo Hde. unfold Reporter.reporter.
  destruct (Z.eqb_spec rc 0) as [->|Hrc]; simpl.
  - destruct (find_dbt_version env1) as [v|] eqn:Hv.
    + destruct (run_completes s o e env1 v rc2 out_b err_b listing err env2)
        as (s' & -> & Hout & _); [done..|].
      simpl. split; [|done]. rewrite Hout, dbt_lines_ci. done.
    + destruct (run_halts_at_import s o e env1) as (s' & -> & Hout & _); [done..|].
      simpl. split; [done|]. split; discriminate.
  - destruct (run_halts_at_install s rc o e env1) as (s' & -> & Hout & _); [done..|].
    simpl. split; [done|]. split; discriminate.
Qed.

(** C19: when the [pip list] child cannot be started,
    [subprocess.run] raises [OSError] after Cell 3's header: Cells 4-6
    are not run, although the spec gives step 3 no failure mode. *)
Theorem list_spawn_failure s o e env1 v env2 :
  spawn (install_argv executable) (st_env s) = (Exited 0 o e, env1) ->
  st_modules s !! "dbt.version"%string = None ->
  find_dbt_version env1 = Some v ->
  spawn (list_argv executable) env1 = (SpawnFailed, env2) ->
  exists s', run_notebook s = (inl OSError, s') /\
    st_out s' = st_out s ++ printed [msg_installing; msg_installed; version_line v; hdr_installed].
Proof.
  intros Hsp Hm Hv Hl. unfold run_notebook.
  erewrite bind_inr by (apply cell1_ok; exact Hsp).
  erewrite bind_inr by (apply cell2_found; [simpl; by rewrite modules_after_imports_dbt | exact Hv]).
  eexists. split.
  - apply bind_inl.
    rewrite cell3_spec by (simpl; unfold globals_after_imports; by simplify_map_eq).
    cbv zeta. simpl. rewrite Hl. reflexivity.
  - simpl. solve_printed.
Qed.

(** C14: when the output of [pip list] is not valid
    UTF-8, [subprocess.run(..., text=True)] raises [UnicodeDecodeError]
    after Cell 3's header: Cells 4-6 are not run, although the spec gives
    step 3 no failure mode. *)
Theorem list_decode_failure s o e env1 v rc2 out_b err_b env2 :
  spawn (install_argv executable) (st_env s) = (Exited 0 o e, env1) ->
  st_modules s !! "dbt.version"%string = None ->
  find_dbt_version env1 = Some v ->
  spawn (list_argv executable) env1 = (Exited rc2 out_b err_b, env2) ->
  text_decode out_b = None ->
  exists s', run_notebook s = (inl UnicodeDecodeError, s') /\
    st_out s' = st_out s ++ printed [msg_installing; msg_installed; version_line v; hdr_installed].
Proof.
  intros Hsp Hm Hv Hl Hdo. unfold run_notebook.
  erewrite bind_inr by (apply cell1_ok; exact Hsp).
  erewrite bind_inr by (apply cell2_found; [simpl; by rewrite modules_after_imports_dbt | exact Hv]).
  eexists. split.
  - apply bind_inl.
    rewrite cell3_spec by (simpl; unfold globals_after_imports; by simplify_map_eq).
    cbv zeta. simpl. rewrite Hl, Hdo. reflexivity.
  - simpl. solve_printed.
Qed.

(** C2: when [pip install] exits with a non-zero status,
    the run raises [CalledProcessError] with that status and the
    command; nothing but "Installing dbt-snowflake..." is printed and
    the host is asked nothing after the install: no later step runs. *)
Theorem install_failure_halts s rc o e env1 :
  spawn (install_argv executable) (st_env s) = (Exited rc o e, env1) ->
  rc <> 0%Z ->
  exists s', run_notebook s = (inl (CalledProcessError rc (install_argv executable)), s') /\
    st_out s' = st_out s ++ printed [msg_installing] /\
    st_trace s' = st_trace s ++ [EvSpawn (install_argv executable) (Exited rc o e)].
Proof.
  intros Hsp Hrc. destruct (run_halts_at_install s rc o e env1) as (s' & ? & ? & ? & _); eauto.
Qed.

(** C3: when the install succeeds but [import dbt.version]
    finds no [dbt], the run raises [ModuleNotFoundError] after the two
    install lines; [pip list] is never run. *)
Theorem import_failure_halts s o e env1 :
  spawn (install_argv executable) (st_env s) = (Exited 0 o e, env1) ->
  st_modules s !! "dbt.version"%string = None ->
  find_dbt_version env1 = None ->
  exists s', run_notebook s = (inl (ModuleNotFoundError "dbt"), s') /\
    st_out s' = st_out s ++ printed [msg_installing; msg_installed] /\
    st_trace s' = st_trace s ++ [EvSpawn (install_argv executable) (Exited 0 o e);
                                 EvImport "dbt.version"].
Proof. apply run_halts_at_import. Qed.

(** C4: when the install exits with 0 and [dbt.version] is
    found, the run completes: it prints the install lines, the version,
    the header, one bullet line per kept line of [pip list] whatever
    the status of [pip list], then the static blocks; the host is asked
    exactly install, import, list, in this order. *)
Theorem run_notebook_success s o e env1 v rc2 out_b err_b listing err env2 :
  spawn (install_argv executable) (st_env s) = (Exited 0 o e, env1) ->
  st_modules s !! "dbt.version"%string = None ->
  find_dbt_version env1 = Some v ->
  spawn (list_argv executable) env1 = (Exited rc2 out_b err_b, env2) ->
  text_decode out_b = Some listing -> text_decode err_b = Some err ->
  exists s', run_notebook s = (inr tt, s') /\
    st_out s' = st_out s ++ printed ([msg_installing; msg_installed; version_line v;
                                      hdr_installed] ++ map bullet_line (dbt_lines listing) ++
                                     Reporter.static_lines) /\
    st_trace s' = st_trace s ++ [EvSpawn (install_argv executable) (Exited 0 o e);
                                 EvImport "dbt.version";
                                 EvSpawn (list_argv executable) (Exited rc2 out_b err_b)].
Proof.
  intros Hsp Hm Hv Hl Hdo Hde.
  destruct (run_completes s o e env1 v rc2 out_b err_b listing err env2) as (s' & ? & ? & ? & _); eauto.
Qed.

(** C9: when the run completes, the notebook's globals
    are the ones it started with and the names the cells bind: [sys] and
    [subprocess] (Cell 1), [dbt] (Cell 2), [result] and the loop variable
    [line], left bound to the last piece of the split output (Cell 3),
    [packages_content] (Cell 4), [commands] and the loop variable [cmd],
    left bound to the last command (Cell 6). *)
Theorem run_notebook_globals s o e env1 v rc2 out_b err_b listing err env2 :
  spawn (install_argv executable) (st_env s) = (Exited 0 o e, env1) ->
  st_modules s !! "dbt.version"%string = None ->
  find_dbt_version env1 = Some v ->
  spawn (list_argv executable) env1 = (Exited rc2 out_b err_b, env2) ->
  text_decode out_b = Some listing -> text_decode err_b = Some err ->
  exists s', run_notebook s = (inr tt, s') /\
    st_globals s' =
      <["cmd" := VStr (lit "dbt build - Run everything")]> (<["commands" := VStrList commands]>
        (<["packages_content" := VStr packages_content]>
          (<["line" := VStr (List.last (split_char NL listing) [])]>
            (<["result" := VCompleted (list_argv executable) rc2 listing err]>
              (<["dbt" := VModule "dbt"]>
                (<["subprocess" := VModule "subprocess"]> (<["sys" := VModule "sys"]>
                  (st_globals s))))))))%string.
Proof.
  intros Hsp Hm Hv Hl Hdo Hde.
  destruct (run_completes s o e env1 v rc2 out_b err_b listing err env2)
    as (s' & Hrun & _ & _ & _ & Hg); [done..|].
  exists s'. split; [done|]. rewrite Hg.
  rewrite !(loop_globals_nonempty _ _ []) by (done || apply split_char_go_nonempty).
  done.
Qed.

End WithHost.

(** ** A concrete host, for the witnesses *)

Module Demo.
Definition python : pystr := lit "/usr/bin/python3".

(** What [pip list] prints once dbt-snowflake is installed. *)
Definition listing : pystr :=
  join [NL] [lit "Package         Version"; lit "--------------- -------";
             lit "dbt-core        1.7.1"; lit "DBT-Snowflake   1.7.1";
             lit "requests        2.31.0"] ++ [NL].

(** What [pip install] writes on the inherited descriptor. *)
Definition pip_output : pystr := lit "Collecting dbt-snowflake" ++ [NL].

(** The host's state is whether dbt-snowflake is installed; [install_rc]
    is the status [pip install] exits with, [importable] whether the
    installed package provides [dbt.version], and [list_starts] whether
    the [pip list] child can be started. *)
Definition host_listing (install_rc : Z) (importable list_starts : bool) (out : pybytes)
  : Host := {|
  host_env := bool;
  executable := python;
  spawn argv installed :=
    if decide (argv = install_argv python)
    then (Exited install_rc pip_output [], bool_decide (install_rc = 0%Z) || installed)
    else if list_starts then (Exited 0 (if installed then out else []) [], installed)
    else (SpawnFailed, installed);
  find_dbt_version installed :=
    if installed && importable then Some (lit "1.7.1") else None
|}.

(** The demo host whose [pip list] prints [listing] (ASCII, so its bytes
    are its code points). *)
Definition host (install_rc : Z) (importable list_starts : bool) : Host :=
  host_listing install_rc importable list_starts listing.
End Demo.

Module WitnessInstallFails.
#[local] Instance h : Host := Demo.host 1 true true.
#[local] Existing Instance ascii_case_mapping.
Definition start : state := @fresh h false.

(** Witness of [install_failure_halts]: pip install exits with 1. *)
Lemma install_failure_halts_witness :
  exists s', run_notebook start =
               (inl (CalledProcessError 1 (install_argv Demo.python)), s') /\
    st_out s' = printed [msg_installing] /\
    st_trace s' = [EvSpawn (install_argv Demo.python) (Exited 1 Demo.pip_output [])].
Proof. apply (install_failure_halts start 1 Demo.pip_output [] false); [reflexivity | lia]. Defined.
End WitnessInstallFails.

Module WitnessImportFails.
#[local] Instance h : Host := Demo.host 0 false true.
#[local] Existing Instance ascii_case_mapping.
Definition start : state := @fresh h false.

(** Witness of [import_failure_halts]: installed, but no [dbt.version]. *)
Lemma import_failure_halts_witness :
  exists s', run_notebook start = (inl (ModuleNotFoundError "dbt"), s') /\
    st_out s' = printed [msg_installing; msg_installed] /\
    st_trace s' = [EvSpawn (install_argv Demo.python) (Exited 0 Demo.pip_output []);
                   EvImport "dbt.version"].
Proof. apply (import_failure_halts start Demo.pip_output [] true); reflexivity. Defined.
End WitnessImportFails.

Module WitnessRun.
#[local] Instance h : Host := Demo.host 0 true true.
#[local] Existing Instance ascii_case_mapping.
Definition start : state := @fresh h false.

(** Witness of [run_notebook_success] on the demo listing. *)
Lemma run_notebook_success_witness :
  exists s', run_notebook start = (inr tt, s') /\
    st_out s' = printed ([msg_installing; msg_installed; version_line (lit "1.7.1");
                          hdr_installed] ++ map bullet_line (dbt_lines Demo.listing) ++
                         Reporter.static_lines) /\
    st_trace s' = [EvSpawn (install_argv Demo.python) (Exited 0 Demo.pip_output []);
                   EvImport "dbt.version";
                   EvSpawn (list_argv Demo.python) (Exited 0 Demo.listing [])].
Proof.
  apply (run_notebook_success start Demo.pip_output [] true (lit "1.7.1") 0 Demo.listing [] Demo.listing [] true);
    reflexivity.
Defined.

(** Witness of [run_notebook_refines_reporter] on the demo listing. *)
Lemma run_notebook_refines_reporter_witness :
  let '(verdict, lines) := Reporter.reporter 0 (Some (lit "1.7.1")) Demo.listing in
  st_out (snd (run_notebook start)) = printed lines /\
  (verdict = Reporter.Completed <-> fst (run_notebook start) = inr tt).
Proof.
  apply (run_notebook_refines_reporter start 0 Demo.pip_output [] true 0 Demo.listing [] Demo.listing [] true);
    reflexivity.
Defined.
(** Witness of [run_notebook_globals]: the demo listing ends with a
    newline, so [line] is left bound to the empty string. *)
Lemma run_notebook_globals_witness :
  exists s', run_notebook start = (inr tt, s') /\
    st_globals s' =
      <["cmd" := VStr (lit "dbt build - Run everything")]> (<["commands" := VStrList commands]>
        (<["packages_content" := VStr packages_content]>
          (<["line" := VStr []]>
            (<["result" := VCompleted (list_argv Demo.python) 0 Demo.listing []]>
              (<["dbt" := VModule "dbt"]>
                (<["subprocess" := VModule "subprocess"]> (<["sys" := VModule "sys"]> ∅)))))))%string.
Proof.
  apply (run_notebook_globals start Demo.pip_output [] true (lit "1.7.1") 0 Demo.listing [] Demo.listing [] true);
    reflexivity.
Defined.
End WitnessRun.

Module WitnessListFails.
#[local] Instance h : Host := Demo.host 0 true false.
#[local] Existing Instance ascii_case_mapping.
Definition start : state := @fresh h false.

(** Witness of [list_spawn_failure]: the [pip list] child cannot start. *)
Lemma list_spawn_failure_witness :
  exists s', run_notebook start = (inl OSError, s') /\
    st_out s' = printed [msg_installing; msg_installed; version_line (lit "1.7.1");
                         hdr_installed].
Proof. apply (list_spawn_failure start Demo.pip_output [] true (lit "1.7.1") true); reflexivity. Defined.
End WitnessListFails.

Module WitnessListNotUtf8.
(** [pip list] prints a line with the byte 0xC3 followed by ['('], an
    invalid continuation byte. *)
#[local] Instance h : Host := Demo.host_listing 0 true true (lit "dbt-core" ++ [0xC3; 0x28]%N ++ [NL]).
#[local] Existing Instance ascii_case_mapping.
Definition start : state := @fresh h false.

(** Witness of [list_decode_failure]. *)
Lemma list_decode_failure_witness :
  exists s', run_notebook start = (inl UnicodeDecodeError, s') /\
    st_out s' = printed [msg_installing; msg_installed; version_line (lit "1.7.1");
                         hdr_installed].
Proof.
  apply (list_decode_failure start Demo.pip_output [] true (lit "1.7.1") 0
           (lit "dbt-core" ++ [0xC3; 0x28]%N ++ [NL]) [] true); reflexivity.
Defined.
End WitnessListNotUtf8.

End Notebook.
