(* ===== verification/Kernel.v ===== *)
(** * The notebook kernel: cells run in any order

    In a notebook the user runs cells one at a time, in any order and as
    often as they like; an exception ends the cell but not the kernel,
    which keeps the globals, [sys.modules] and the output the cell left.
    [history s0 cs s] is this step relation: from [s0], running the cells
    [cs] in order leads to [s].

    The footprints say which globals and which [sys.modules] entries a
    program may write; they compose through [bind], so each cell's
    footprint follows from its statements.  The invariants proved by rule
    induction on [history]:
    - [subprocess] (and [sys]) is bound exactly when Cell 1 has been run,
      even when its install failed, so Cell 3 raises [NameError] in a
      kernel where Cell 1 never ran;
    - once [dbt.version] is in [sys.modules] its [__version__] never
      changes, so Cell 2 keeps printing the version first imported, even
      after Cell 1 reinstalls. *)

From Stdlib Require Import String NArith ZArith.
From stdpp Require Import base list gmap strings.
From S2P Require Import Prelude PyStr Codec Filter Runtime Cells Notebook.

Module Kernel.
Import Lower Newlines Runtime Cells Notebook.
Local Open Scope py_scope.

Inductive cell := Cell1 | Cell2 | Cell3 | Cell4 | Cell5 | Cell6.

#[export] Instance cell_eq_dec : EqDecision cell.
Proof. solve_decision. Defined.

(** ** Footprints *)

Section Footprints.
Context `{H : Host}.

(** [m] leaves the global [k] as it found it. *)
Definition keeps_global (k : string) {A} (m : M A) : Prop :=
  forall s, st_globals (snd (m s)) !! k = st_globals s !! k.

(** [m] never changes the [sys.modules] entry [k] once it exists. *)
Definition keeps_module (k : string) {A} (m : M A) : Prop :=
  forall s x, st_modules s !! k = Some x -> st_modules (snd (m s)) !! k = Some x.

Lemma keeps_global_bind k {A B} (m : M A) (f : A -> M B) :
  keeps_global k m -> (forall x, keeps_global k (f x)) -> keeps_global k (bind m f).
Proof.
  intros Hm Hf s. unfold bind. specialize (Hm s).
  destruct (m s) as [[e|x] s']; simpl in *; [done|]. by rewrite Hf.
Qed.

Lemma keeps_module_bind k {A B} (m : M A) (f : A -> M B) :
  keeps_module k m -> (forall x, keeps_module k (f x)) -> keeps_module k (bind m f).
Proof.
  intros Hm Hf s x Hx. unfold bind. specialize (Hm s x Hx).
  destruct (m s) as [[e|y] s']; simpl in *; [done|]. by apply Hf.
Qed.

End Footprints.

Section Primitives.
Context `{H : Host}.
Variable k : string.

Lemma keeps_global_ret {A} (x : A) : keeps_global k (ret x).
Proof. done. Qed.
Lemma keeps_global_raise {A} e : keeps_global k (raise (A := A) e).
Proof. done. Qed.
Lemma keeps_global_print x : keeps_global k (py_print x).
Proof. done. Qed.
Lemma keeps_global_load x : keeps_global k (load_global x).
Proof. intros s. unfold load_global. by destruct (st_globals s !! x). Qed.
Lemma keeps_global_store x v : k <> x -> keeps_global k (store_global x v).
Proof. intros Hk s. simpl. by rewrite lookup_insert_ne. Qed.
Lemma keeps_global_import_stdlib n : k <> n -> keeps_global k (import_stdlib n).
Proof. intros Hk s. simpl. by rewrite lookup_insert_ne. Qed.
Lemma keeps_global_import_dbt : k <> "dbt"%string -> keeps_global k import_dbt_version.
Proof.
  intros Hk s. unfold import_dbt_version.
  destruct (st_modules s !! _); [simpl; by rewrite lookup_insert_ne|].
  destruct (find_dbt_version _); simpl; [by rewrite lookup_insert_ne|done].
Qed.
Lemma keeps_global_version_attr : keeps_global k dbt_version_attr.
Proof.
  apply keeps_global_bind; [apply keeps_global_load|]. intros v s.
  unfold keeps_global in *. by repeat case_match.
Qed.
Lemma keeps_global_executable : keeps_global k sys_executable.
Proof.
  apply keeps_global_bind; [apply keeps_global_load|]. intros v s.
  by repeat case_match.
Qed.
Lemma keeps_global_subprocess_attr a : keeps_global k (subprocess_attr a).
Proof.
  apply keeps_global_bind; [apply keeps_global_load|]. intros v s.
  by repeat case_match.
Qed.
Lemma keeps_global_run_child inherit argv : keeps_global k (run_child inherit argv).
Proof. intros s. unfold run_child. by destruct (spawn argv (st_env s)). Qed.
Lemma keeps_global_check_call argv : keeps_global k (check_call argv).
Proof.
  apply keeps_global_bind; [apply keeps_global_run_child|].
  intros [rc o e|]; [destruct (rc =? 0)%Z|]; done.
Qed.
Lemma keeps_global_subprocess_run argv : keeps_global k (subprocess_run argv).
Proof.
  apply keeps_global_bind; [apply keeps_global_run_child|].
  intros [rc o e|]; [|done]. by destruct (text_decode o), (text_decode e).
Qed.
Lemma keeps_global_for name xs (body : pystr -> M unit) :
  k <> name -> (forall x, keeps_global k (body x)) -> keeps_global k (py_for name VStr xs body).
Proof.
  intros Hk Hb. induction xs as [|x xs IH]; simpl; [done|].
  apply keeps_global_bind; [by apply keeps_global_store|]. intros _.
  apply keeps_global_bind; [apply Hb|]. by intros _.
Qed.

End Primitives.

Section ModulePrimitives.
Context `{H : Host}.
Variable k : string.

Lemma keeps_module_ret {A} (x : A) : keeps_module k (ret x).
Proof. by intros s y. Qed.
Lemma keeps_module_raise {A} e : keeps_module k (raise (A := A) e).
Proof. by intros s y. Qed.
Lemma keeps_module_print x : keeps_module k (py_print x).
Proof. by intros s y. Qed.
Lemma keeps_module_load x : keeps_module k (load_global x).
Proof. intros s y. unfold load_global. by destruct (st_globals s !! x). Qed.
Lemma keeps_module_store x v : keeps_module k (store_global x v).
Proof. by intros s y. Qed.
Lemma keeps_module_import_stdlib n : k <> n -> keeps_module k (import_stdlib n).
Proof. intros Hk s y Hy. simpl. by rewrite lookup_insert_ne. Qed.
(** [import dbt.version] only adds [dbt] and [dbt.version] when
    [dbt.version] is absent; an existing entry is reused. *)
Lemma keeps_module_import_dbt : k <> "dbt"%string -> keeps_module k import_dbt_version.
Proof.
  intros Hk s y Hy. unfold import_dbt_version.
  destruct (st_modules s !! "dbt.version"%string) eqn:E; [done|].
  destruct (find_dbt_version _); simpl; [|done].
  rewrite lookup_insert_ne; [by rewrite lookup_insert_ne|]. intros <-. congruence.
Qed.
Lemma keeps_module_version_attr : keeps_module k dbt_version_attr.
Proof.
  apply keeps_module_bind; [apply keeps_module_load|]. intros v s y Hy.
  by repeat case_match.
Qed.
Lemma keeps_module_executable : keeps_module k sys_executable.
Proof.
  apply keeps_module_bind; [apply keeps_module_load|]. intros v s y Hy.
  by repeat case_match.
Qed.
Lemma keeps_module_subprocess_attr a : keeps_module k (subprocess_attr a).
Proof.
  apply keeps_module_bind; [apply keeps_module_load|]. intros v s y Hy.
  by repeat case_match.
Qed.
Lemma keeps_module_run_child inherit argv : keeps_module k (run_child inherit argv).
Proof. intros s y Hy. unfold run_child. by destruct (spawn argv (st_env s)). Qed.
Lemma keeps_module_check_call argv : keeps_module k (check_call argv).
Proof.
  apply keeps_module_bind; [apply keeps_module_run_child|].
  intros [rc o e|]; [destruct (rc =? 0)%Z|]; by intros s y.
Qed.
Lemma keeps_module_subprocess_run argv : keeps_module k (subprocess_run argv).
Proof.
  apply keeps_module_bind; [apply keeps_module_run_child|].
  intros [rc o e|]; [destruct (text_decode o), (text_decode e)|]; by intros s y.
Qed.
Lemma keeps_module_for name xs (body : pystr -> M unit) :
  (forall x, keeps_module k (body x)) -> keeps_module k (py_for name VStr xs body).
Proof.
  intros Hb. induction xs as [|x xs IH]; simpl; [apply keeps_module_ret|].
  apply keeps_module_bind; [apply keeps_module_store|]. intros _.
  apply keeps_module_bind; [apply Hb|]. by intros _.
Qed.

End ModulePrimitives.

Section Cells.
Context `{H : Host} `{CM : CaseMapping}.

Lemma keeps_global_result_stdout k : keeps_global k result_stdout.
Proof. apply keeps_global_bind; [apply keeps_global_load|]. by intros []. Qed.
Lemma keeps_module_result_stdout k : keeps_module k result_stdout.
Proof.
  apply keeps_module_bind; [apply keeps_module_load|]. intros v s' y Hy. by destruct v.
Qed.

(** The cell the user runs, and the globals its statements bind. *)
Definition cell_prog (c : cell) : M unit :=
  match c with
  | Cell1 => cell1 | Cell2 => cell2 | Cell3 => cell3
  | Cell4 => cell4 | Cell5 => cell5 | Cell6 => cell6
  end.

Definition writes (c : cell) : list string :=
  match c with
  | Cell1 => ["sys"; "subprocess"] | Cell2 => ["dbt"] | Cell3 => ["result"; "line"]
  | Cell4 => ["packages_content"] | Cell5 => [] | Cell6 => ["commands"; "cmd"]
  end%string.

End Cells.

(** Decompose a program into its statements and discharge each one's
    footprint. *)
Ltac footprint :=
  repeat match goal with
  | |- keeps_global _ (bind _ _) => apply keeps_global_bind; [|intros ?]
  | |- keeps_module _ (bind _ _) => apply keeps_module_bind; [|intros ?]
  | |- keeps_global _ (cell3_body _) => unfold cell3_body; case_match
  | |- keeps_module _ (cell3_body _) => unfold cell3_body; case_match
  | |- keeps_global _ (ret _) => apply keeps_global_ret
  | |- keeps_global _ (py_print _) => apply keeps_global_print
  | |- keeps_global _ (load_global _) => apply keeps_global_load
  | |- keeps_global _ (store_global _ _) => apply keeps_global_store
  | |- keeps_global _ (import_stdlib _) => apply keeps_global_import_stdlib
  | |- keeps_global _ import_dbt_version => apply keeps_global_import_dbt
  | |- keeps_global _ dbt_version_attr => apply keeps_global_version_attr
  | |- keeps_global _ sys_executable => apply keeps_global_executable
  | |- keeps_global _ (subprocess_attr _) => apply keeps_global_subprocess_attr
  | |- keeps_global _ (check_call _) => apply keeps_global_check_call
  | |- keeps_global _ (subprocess_run _) => apply keeps_global_subprocess_run
  | |- keeps_global _ result_stdout => apply keeps_global_result_stdout
  | |- keeps_global _ (py_for _ _ _ _) => apply keeps_global_for
  | |- keeps_module _ (ret _) => apply keeps_module_ret
  | |- keeps_module _ (py_print _) => apply keeps_module_print
  | |- keeps_module _ (load_global _) => apply keeps_module_load
  | |- keeps_module _ (store_global _ _) => apply keeps_module_store
  | |- keeps_module _ (import_stdlib _) => apply keeps_module_import_stdlib
  | |- keeps_module _ import_dbt_version => apply keeps_module_import_dbt
  | |- keeps_module _ dbt_version_attr => apply keeps_module_version_attr
  | |- keeps_module _ sys_executable => apply keeps_module_executable
  | |- keeps_module _ (subprocess_attr _) => apply keeps_module_subprocess_attr
  | |- keeps_module _ (check_call _) => apply keeps_module_check_call
  | |- keeps_module _ (subprocess_run _) => apply keeps_module_subprocess_run
  | |- keeps_module _ result_stdout => apply keeps_module_result_stdout
  | |- keeps_module _ (py_for _ _ _ _) => apply keeps_module_for
  | |- forall _, _ => intros ?
  | |- ?a <> ?b => is_var a; let E := fresh in intros E; subst a; simpl in *; tauto
  | |- _ <> _ => discriminate
  end.

Section CellFootprints.
Context `{H : Host} `{CM : CaseMapping}.

(** A cell leaves every global it does not bind as it found it, whatever
    its outcome. *)
Lemma cell_keeps_global c k : ~ In k (writes c) -> keeps_global k (cell_prog c).
Proof.
  intros Hk. destruct c; simpl in Hk;
    unfold cell_prog, cell1, cell2, cell3, cell4, cell5, cell6; footprint.
Qed.

(** No cell changes an existing [dbt.version] entry of [sys.modules]. *)
Lemma cell_keeps_dbt_version c : keeps_module "dbt.version" (cell_prog c).
Proof.
  destruct c; unfold cell_prog, cell1, cell2, cell3, cell4, cell5, cell6; footprint.
Qed.

End CellFootprints.

(** ** Running cells in any order *)

Section Steps.
Context `{H : Host} `{CM : CaseMapping}.

(** Running one cell: the kernel keeps the state the cell leaves, whether
    it completed or raised. *)
Definition run_cell (c : cell) (s : state) : state := snd (cell_prog c s).

(** From [s0], running the cells [cs] in this order leads to [s]. *)
Inductive history (s0 : state) : list cell -> state -> Prop :=
| history_nil : history s0 [] s0
| history_snoc cs s c : history s0 cs s -> history s0 (cs ++ [c]) (run_cell c s).

Definition run_cells (cs : list cell) (s0 : state) : state :=
  fold_left (fun s c => run_cell c s) cs s0.

Lemma run_cells_snoc cs c s0 : run_cells (cs ++ [c]) s0 = run_cell c (run_cells cs s0).
Proof. unfold run_cells. by rewrite fold_left_app. Qed.

(** The relation is the graph of [run_cells]: the kernel is deterministic. *)
Lemma history_iff s0 cs s : history s0 cs s <-> s = run_cells cs s0.
Proof.
  split.
  - induction 1 as [|cs s c _ IH]; [done|]. by rewrite run_cells_snoc, IH.
  - intros ->. induction cs as [|c cs IH] using rev_ind; [constructor|].
    rewrite run_cells_snoc. by constructor.
Qed.


(** Cell 1 binds [sys] and [subprocess] before anything can fail. *)
Lemma cell1_binds x s :
  In x (writes Cell1) -> st_globals (run_cell Cell1 s) !! x = Some (VModule x).
Proof.
  intros Hx. unfold run_cell. simpl. rewrite cell1_spec. cbv zeta.
  destruct (spawn _ _) as [[rc o e|] e'];
    [destruct (rc =? 0)%Z|]; simpl; unfold globals_after_imports;
    destruct Hx as [<-|[<-|[]]]; by simplify_map_eq.
Qed.

Lemma history_keeps_dbt_version s0 cs s x :
  history s0 cs s -> st_modules s0 !! "dbt.version"%string = Some x ->
  st_modules s !! "dbt.version"%string = Some x.
Proof.
  induction 1 as [|cs s c _ IH]; intros Hx; [done|].
  apply cell_keeps_dbt_version, IH, Hx.
Qed.

End Steps.

Section Invariants.
Context `{H : Host} `{CM : CaseMapping}.

Lemma writes_only_cell1 x c : In x (writes Cell1) -> c <> Cell1 -> ~ In x (writes c).
Proof.
  intros Hx Hc. destruct c; simpl in *; [done|..];
    destruct Hx as [<-|[<-|[]]]; intuition discriminate.
Qed.

(** The namespace invariant, by rule induction on the history. *)
Lemma imports_bound_history env cs s x :
  history (fresh env) cs s -> In x (writes Cell1) ->
  (In Cell1 cs -> st_globals s !! x = Some (VModule x)) /\
  (~ In Cell1 cs -> st_globals s !! x = None).
Proof.
  intros Hh Hx. induction Hh as [|cs s c _ IH]; [split; [intros []|done]|].
  rewrite in_app_iff. simpl.
  destruct (decide (c = Cell1)) as [->|Hc]; [rewrite cell1_binds by done; tauto|].
  unfold run_cell. rewrite cell_keeps_global by (by apply writes_only_cell1).
  destruct IH as [IH1 IH2]. split; [intros [?|[?|[]]]; [auto|congruence]|].
  intros Hn. apply IH2. tauto.
Qed.

(** C21: in a kernel started fresh, [sys] and [subprocess] are
    bound (to their modules) exactly when Cell 1 has been run at least
    once, even if its install failed; no other cell binds or unbinds
    them. *)
Theorem imports_bound_iff_cell1_ran env cs s x :
  history (fresh env) cs s -> In x (writes Cell1) ->
  (In Cell1 cs -> st_globals s !! x = Some (VModule x)) /\
  (~ In Cell1 cs -> st_globals s !! x = None).
Proof. apply imports_bound_history. Qed.

(** C22: in a kernel where Cell 1 has never been run, Cell 3
    prints its header and raises [NameError] on [subprocess]: the cells
    cannot be run in any order. *)
Theorem cell3_before_cell1_fails env cs s :
  history (fresh env) cs s -> ~ In Cell1 cs ->
  cell_prog Cell3 s = (inl (NameError "subprocess"), after_prints s [hdr_installed]).
Proof.
  intros Hh Hn. apply cell3_no_subprocess.
  apply (imports_bound_history env cs s "subprocess"); [done|simpl; auto|done].
Qed.

(** C23: once [dbt.version] is in [sys.modules] with version
    [v], every later run of Cell 2, after any cells (Cell 1 reinstalling
    included), prints [v] and asks the host nothing: the version printed
    is the one first imported in the kernel, not the one installed. *)
Theorem cell2_reports_cached_version s0 cs s v :
  history s0 cs s -> st_modules s0 !! "dbt.version"%string = Some (Some v) ->
  exists s', cell_prog Cell2 s = (inr tt, s') /\
    st_out s' = st_out s ++ printed [version_line v] /\ st_trace s' = st_trace s.
Proof.
  intros Hh Hv. simpl. rewrite (cell2_cached s v) by (by eapply history_keeps_dbt_version).
  by eexists.
Qed.

End Invariants.

(** ** Witnesses on the demo host *)

Module KernelWitnesses.
#[local] Instance h : Host := Demo.host 0 true true.
#[local] Existing Instance ascii_case_mapping.
Definition start : state := @fresh h false.

(** Witness of [imports_bound_iff_cell1_ran]: Cell 3, then Cell 1. *)
Lemma imports_bound_iff_cell1_ran_witness :
  (In Cell1 [Cell3; Cell1] ->
     st_globals (run_cells [Cell3; Cell1] start) !! "subprocess"%string =
     Some (VModule "subprocess")) /\
  (~ In Cell1 [Cell3; Cell1] ->
     st_globals (run_cells [Cell3; Cell1] start) !! "subprocess"%string = None).
Proof.
  apply (imports_bound_iff_cell1_ran (H := h) false); [by apply history_iff | simpl; auto].
Defined.

(** Witness of [cell3_before_cell1_fails]: Cells 4 and 2 only. *)
Lemma cell3_before_cell1_fails_witness :
  let s := run_cells [Cell4; Cell2] start in
  cell_prog Cell3 s = (inl (NameError "subprocess"), after_prints s [hdr_installed]).
Proof.
  apply (cell3_before_cell1_fails (H := h) false [Cell4; Cell2]);
    [by apply history_iff | simpl; intuition discriminate].
Defined.

(** Witness of [cell2_reports_cached_version]: Cells 1 and 2, then Cell 1
    again. *)
Lemma cell2_reports_cached_version_witness :
  let s := run_cells [Cell1] (run_cells [Cell1; Cell2] start) in
  exists s', cell_prog Cell2 s = (inr tt, s') /\
    st_out s' = st_out s ++ printed [version_line (lit "1.7.1")] /\ st_trace s' = st_trace s.
Proof.
  apply (cell2_reports_cached_version (run_cells [Cell1; Cell2] start) [Cell1]);
    [by apply history_iff | vm_compute; reflexivity].
Defined.
End KernelWitnesses.

End Kernel.
