(* ===== verification/Types.v ===== *)
(** * The notebook's names and their types; cells do not go wrong

    The cells read globals they expect of a given type: [sys.executable]
    needs the module [sys] (line 11), [dbt.version.__version__] the module
    [dbt] and its submodule in [sys.modules] (line 16), [result.stdout] a
    [CompletedProcess] (line 25).  Each of these raises
    [AttributeError] when the name holds another value.  [global_type]
    gives the type of every name the notebook binds; [wf] is the
    well-formedness of a kernel state: the globals have their types, and
    [dbt] is bound only once [dbt.version] is in [sys.modules] with a
    version.

    [wt m P] is a typing judgement for the runtime's programs, in the
    style of a Hoare triple: from a well-formed state, [m] leaves a
    well-formed state, never raises [AttributeError], and returns values
    satisfying [P].  It composes through [bind]; the primitives and the
    six cells are typed; preservation and "well-typed cells do not go
    wrong" follow by rule induction on the kernel's [history]. *)

From Stdlib Require Import String NArith ZArith.
From stdpp Require Import base list gmap strings.
From S2P Require Import Prelude PyStr Codec Filter Runtime Cells Notebook Kernel.

Module Typing.
Import Lower Newlines Runtime Cells Notebook Kernel.

Inductive pytype := TModule (name : string) | TStr | TStrList | TCompleted.

#[export] Instance pytype_eq_dec : EqDecision pytype.
Proof. solve_decision. Defined.

Definition type_of (v : pyval) : pytype :=
  match v with
  | VModule n => TModule n
  | VStr _ => TStr
  | VStrList _ => TStrList
  | VCompleted _ _ _ _ => TCompleted
  end.

(** The names the notebook binds and the type of what each holds:
    [import sys], [import subprocess] (lines 7-8), [import dbt.version]
    (line 15), [result = subprocess.run(...)] (line 20), the loop
    variables [line] (line 25) and [cmd] (line 58), [packages_content]
    (line 31), [commands] (line 49). *)
Definition global_type (x : string) : option pytype :=
  match x with
  | "sys" => Some (TModule "sys")
  | "subprocess" => Some (TModule "subprocess")
  | "dbt" => Some (TModule "dbt")
  | "result" => Some TCompleted
  | "line" | "packages_content" | "cmd" => Some TStr
  | "commands" => Some TStrList
  | _ => None
  end%string.

Definition globals_typed (g : gmap string pyval) : Prop :=
  map_Forall (fun x v => global_type x = Some (type_of v)) g.

(** A well-formed kernel state. *)
Definition wf `{Host} (s : state) : Prop :=
  globals_typed (st_globals s) /\
  (forall x, st_modules s !! "dbt.version"%string = Some x -> is_Some x) /\
  (is_Some (st_globals s !! "dbt"%string) ->
   exists v, st_modules s !! "dbt.version"%string = Some (Some v)).

Section Judgement.
Context `{H : Host}.

(** [m] is typed with result predicate [P]. *)
Definition wt {A} (m : M A) (P : A -> Prop) : Prop :=
  forall s, wf s ->
    wf (snd (m s)) /\ (forall a, fst (m s) <> inl (AttributeError a)) /\
    (forall x, fst (m s) = inr x -> P x).

Lemma wt_bind {A B} (m : M A) (k : A -> M B) P Q :
  wt m P -> (forall a, P a -> wt (k a) Q) -> wt (bind m k) Q.
Proof.
  intros Hm Hk s Hs. destruct (Hm s Hs) as (Hs' & Hna & HP). unfold bind.
  destruct (m s) as [[e|a] s'] eqn:E; simpl in *; [split_and!; [done|intros a' [= ->]; by apply (Hna a')|by intros ? ?]|].
  by apply Hk; [apply HP|].
Qed.

Lemma wt_weaken {A} (m : M A) (P Q : A -> Prop) :
  wt m P -> (forall a, P a -> Q a) -> wt m Q.
Proof. intros Hm HPQ s Hs. destruct (Hm s Hs) as (? & ? & ?). split_and!; eauto. Qed.

Lemma wt_ret {A} (x : A) (P : A -> Prop) : P x -> wt (ret x) P.
Proof. intros Hx s Hs. split_and!; [done|done|by intros ? [= <-]]. Qed.

End Judgement.

(** ** The primitives *)

Section Primitives.
Context `{H : Host}.

(** A statement that leaves the globals and [sys.modules] alone keeps
    the state well-formed. *)
Lemma wf_same s s' :
  st_globals s' = st_globals s -> st_modules s' = st_modules s -> wf s -> wf s'.
Proof. unfold wf. by intros -> ->. Qed.

Lemma type_of_module v n : type_of v = TModule n -> v = VModule n.
Proof. by destruct v; intros [=->]. Qed.

Lemma type_of_completed v : type_of v = TCompleted -> exists a rc o e, v = VCompleted a rc o e.
Proof. destruct v; intros [=]; eauto. Qed.

Lemma wt_raise {A} e (P : A -> Prop) : (forall a, e <> AttributeError a) -> wt (raise e) P.
Proof. intros He s Hs. split_and!; [done|intros a [= ->]; by apply (He a)|done]. Qed.

Lemma wt_print x : wt (py_print x) (fun _ => True).
Proof. intros s Hs. split_and!; [by eapply wf_same|done|done]. Qed.

Lemma wt_load x : wt (load_global x) (fun v => global_type x = Some (type_of v)).
Proof.
  intros s Hs. unfold load_global. destruct (st_globals s !! x) eqn:E; simpl;
    split_and!; try done; intros ? [= <-]. exact (map_Forall_lookup_1 _ _ _ _ (proj1 Hs) E).
Qed.

Lemma wt_store x v :
  global_type x = Some (type_of v) -> x <> "dbt"%string -> wt (store_global x v) (fun _ => True).
Proof.
  intros Hx Hd s (Hg & Hm & Hdbt). split_and!; [|done|done]. split_and!; simpl.
  - by apply map_Forall_insert_2.
  - done.
  - rewrite lookup_insert_ne by done. apply Hdbt.
Qed.

Lemma wt_import_stdlib name :
  global_type name = Some (TModule name) -> name <> "dbt"%string -> name <> "dbt.version"%string ->
  wt (import_stdlib name) (fun _ => True).
Proof.
  intros Hn Hd Hdv s (Hg & Hm & Hdbt). split_and!; [|done|done]. split_and!; simpl.
  - by apply map_Forall_insert_2.
  - rewrite lookup_insert_ne by done. apply Hm.
  - rewrite !lookup_insert_ne by done. apply Hdbt.
Qed.

Lemma wt_import_dbt_version : wt import_dbt_version (fun _ => True).
Proof.
  intros s Hs. pose proof Hs as (Hg & Hm & Hdbt). unfold import_dbt_version.
  destruct (st_modules s !! "dbt.version"%string) as [x|] eqn:Ex.
  { split_and!; [|done|done]. unfold wf; simpl. split_and!.
    - by apply map_Forall_insert_2.
    - rewrite Ex. exact Hm.
    - intros _. rewrite Ex. destruct (Hm x eq_refl) as [v ->]. eauto. }
  destruct (find_dbt_version (st_env s)) as [v|]; simpl.
  - split_and!; [|done|done]. split_and!; simpl.
    + by apply map_Forall_insert_2.
    + rewrite lookup_insert. intros ? [= <-]. eauto.
    + intros _. rewrite lookup_insert. eauto.
  - split_and!; [apply wf_same with s; [done|done|exact Hs]|intros ? [=]|done].
Qed.

Lemma wt_dbt_version_attr : wt dbt_version_attr (fun _ => True).
Proof.
  intros s Hs. pose proof Hs as (Hg & Hm & Hdbt). unfold dbt_version_attr, bind, load_global.
  destruct (st_globals s !! "dbt"%string) as [v|] eqn:Ev; simpl;
    [|split_and!; [exact Hs|intros ? [=]|done]].
  pose proof (map_Forall_lookup_1 _ _ _ _ Hg Ev) as Hv. simpl in Hv.
  injection Hv as Hv. symmetry in Hv. apply type_of_module in Hv as ->.
  destruct (Hdbt ltac:(by eexists)) as [ver Hver]. rewrite Hver. split_and!; [exact Hs|intros ? [=]|done].
Qed.

(** In a well-formed state a name typed as a module holds that module. *)
Lemma wf_module s x v : wf s -> global_type x = Some (TModule x) ->
  st_globals s !! x = Some v -> v = VModule x.
Proof.
  intros (Hg & _ & _) Hx Ev. pose proof (map_Forall_lookup_1 _ _ _ _ Hg Ev) as Hv. simpl in Hv.
  rewrite Hx in Hv. injection Hv as Hv. symmetry in Hv. by apply type_of_module.
Qed.

Lemma wt_sys_executable : wt sys_executable (fun _ => True).
Proof.
  intros s Hs. unfold sys_executable, bind, load_global.
  destruct (st_globals s !! "sys"%string) as [v|] eqn:Ev; simpl;
    [rewrite (wf_module s "sys" v Hs eq_refl Ev)|]; (split_and!; [exact Hs|intros ? [=]|done]).
Qed.

Lemma wt_subprocess_attr a : wt (subprocess_attr a) (fun _ => True).
Proof.
  intros s Hs. unfold subprocess_attr, bind, load_global.
  destruct (st_globals s !! "subprocess"%string) as [v|] eqn:Ev; simpl;
    [try rewrite (wf_module s "subprocess" v Hs eq_refl Ev)|]; (split_and!; [exact Hs|intros ? [=]|done]).
Qed.

Lemma wt_run_child inherit argv : wt (run_child inherit argv) (fun _ => True).
Proof.
  intros s Hs. unfold run_child. destruct (spawn argv (st_env s)) as [r e'].
  split_and!; [by eapply wf_same|done|done].
Qed.

Lemma wt_check_call argv : wt (check_call argv) (fun _ => True).
Proof.
  eapply wt_bind; [apply wt_run_child|]. intros [rc o e|] _.
  - destruct (rc =? 0)%Z; [by apply wt_ret|by apply wt_raise].
  - by apply wt_raise.
Qed.

Lemma wt_subprocess_run argv : wt (subprocess_run argv) (fun v => type_of v = TCompleted).
Proof.
  eapply wt_bind; [apply wt_run_child|]. intros [rc o e|] _; [|by apply wt_raise].
  destruct (text_decode o), (text_decode e); [by apply wt_ret|by apply wt_raise..].
Qed.

Lemma wt_result_stdout : wt result_stdout (fun _ => True).
Proof.
  eapply wt_bind; [apply wt_load|]. intros r Hr. simpl in Hr. injection Hr as Hr.
  symmetry in Hr. apply type_of_completed in Hr as (a & rc & o & e & ->). by apply wt_ret.
Qed.

Lemma wt_for name xs (body : pystr -> M unit) :
  global_type name = Some TStr -> name <> "dbt"%string ->
  (forall x, wt (body x) (fun _ => True)) -> wt (py_for name VStr xs body) (fun _ => True).
Proof.
  intros Hn Hd Hb. induction xs as [|x xs IH]; simpl; [by apply wt_ret|].
  eapply wt_bind; [by apply wt_store|]. intros _ _.
  eapply wt_bind; [apply Hb|]. by intros _ _.
Qed.

End Primitives.

(** Type a program statement by statement, on the heads of its
    statements. *)
Ltac typed :=
  repeat match goal with
  | |- wt (bind _ _) _ => eapply wt_bind; [|intros ? ?]
  | |- wt (py_print _) _ => apply wt_print
  | |- wt (load_global _) _ => apply wt_load
  | |- wt (store_global _ _) _ => apply wt_store; [simpl; congruence|discriminate]
  | |- wt (import_stdlib _) _ => apply wt_import_stdlib; [done|discriminate|discriminate]
  | |- wt import_dbt_version _ => apply wt_import_dbt_version
  | |- wt dbt_version_attr _ => apply wt_dbt_version_attr
  | |- wt sys_executable _ => apply wt_sys_executable
  | |- wt (subprocess_attr _) _ => apply wt_subprocess_attr
  | |- wt (check_call _) _ => apply wt_check_call
  | |- wt (subprocess_run _) _ => apply wt_subprocess_run
  | |- wt result_stdout _ => apply wt_result_stdout
  | |- wt (py_for _ _ _ _) _ => apply wt_for; [done|discriminate|intros ?]
  | |- wt (cell3_body _) _ => unfold cell3_body; case_match
  | |- wt (ret _) _ => by apply wt_ret
  end.

(** ** The cells, and the kernel *)

Section Cells.
Context `{H : Host} `{CM : CaseMapping}.

Lemma cell_wt c : wt (cell_prog c) (fun _ => True).
Proof. destruct c; unfold cell_prog, cell1, cell2, cell3, cell4, cell5, cell6; typed. Qed.

Lemma wf_fresh env : wf (fresh env).
Proof. split_and!; [apply map_Forall_empty|done|by intros []]. Qed.

(** Preservation, by rule induction on the kernel's runs. *)
Lemma history_wf s0 cs s : history s0 cs s -> wf s0 -> wf s.
Proof.
  induction 1 as [|cs s c _ IH]; intros H0; [done|].
  apply (cell_wt c), IH, H0.
Qed.

(** C10: in a kernel started fresh and running the cells in
    any order, every state is well-formed: each name the notebook binds
    holds a value of its type ([sys], [subprocess] and [dbt] the modules
    of those names, [result] a [CompletedProcess], [line],
    [packages_content] and [cmd] a [str], [commands] a list of [str]),
    and [dbt] is bound only with a version in [sys.modules]. *)
Theorem kernel_states_well_typed env cs s : history (fresh env) cs s -> wf s.
Proof. intros Hh. eapply history_wf; [exact Hh|apply wf_fresh]. Qed.

(** C11: well-typed cells do not go wrong: in a kernel
    started fresh, whatever cells ran before and in whatever order, no
    cell raises [AttributeError]; the attribute reads [sys.executable],
    [subprocess.check_call], [subprocess.run], [dbt.version.__version__]
    and [result.stdout] always succeed (the other exceptions remain
    possible). *)
Theorem cells_do_not_go_wrong env cs s c a :
  history (fresh env) cs s -> fst (cell_prog c s) <> inl (AttributeError a).
Proof.
  intros Hh. apply (cell_wt c). eapply history_wf; [exact Hh|apply wf_fresh].
Qed.

(** C12: the typing is what makes Cell 3 safe: in a kernel
    where [sys] has been rebound to a [str] (a user's [sys = "..."] in
    another cell), Cell 3 prints its header and raises
    [AttributeError] on [sys.executable]. *)
Theorem cell3_sys_rebound s x :
  st_globals s !! "subprocess"%string = Some (VModule "subprocess") ->
  st_globals s !! "sys"%string = Some (VStr x) ->
  cell3 s = (inl (AttributeError "executable"), after_prints s [hdr_installed]).
Proof.
  intros Hsub Hsys. unfold cell3. rewrite bind_py_print.
  rewrite bind_subprocess_attr by (by rewrite st_globals_after_prints).
  cbv [bind sys_executable load_global]. by rewrite st_globals_after_prints, Hsys.
Qed.

(** C13: [subprocess.run] is looked up on whatever
    [subprocess] holds, before [sys.executable] is read: in a kernel
    where [subprocess] has been rebound to a [str], Cell 3 prints its
    header and raises [AttributeError] on [run], without starting
    [pip list]. *)
Theorem cell3_subprocess_rebound s x :
  st_globals s !! "subprocess"%string = Some (VStr x) ->
  cell3 s = (inl (AttributeError "run"), after_prints s [hdr_installed]).
Proof.
  intros Hsub. unfold cell3. rewrite bind_py_print.
  cbv [bind subprocess_attr load_global]. by rewrite st_globals_after_prints, Hsub.
Qed.

End Cells.

(** ** Witnesses *)

Module TypingWitnesses.
#[local] Instance h : Host := Demo.host 0 true true.
#[local] Existing Instance ascii_case_mapping.
Definition start : state := @fresh h false.

(** Witness of [kernel_states_well_typed]: Cell 3 (which fails), then
    Cells 1, 2 and 3. *)
Lemma kernel_states_well_typed_witness : wf (run_cells [Cell3; Cell1; Cell2; Cell3] start).
Proof. apply (kernel_states_well_typed (H := h) false [Cell3; Cell1; Cell2; Cell3]). by apply history_iff. Defined.

(** Witness of [cells_do_not_go_wrong]: Cell 2 after Cells 1 and 2. *)
Lemma cells_do_not_go_wrong_witness :
  fst (cell_prog Cell2 (run_cells [Cell1; Cell2] start)) <> inl (AttributeError "version").
Proof. apply (cells_do_not_go_wrong (H := h) false [Cell1; Cell2]). by apply history_iff. Defined.

(** Witness of [cell3_sys_rebound]. *)
Lemma cell3_sys_rebound_witness :
  let s := mkState false (<["sys" := VStr (lit "python")]>
                           (<["subprocess" := VModule "subprocess"]> ∅))%string ∅ [] [] [] in
  cell3 s = (inl (AttributeError "executable"), after_prints s [hdr_installed]).
Proof. apply (cell3_sys_rebound (H := h) _ (lit "python")); reflexivity. Defined.
(** Witness of [cell3_subprocess_rebound]. *)
Lemma cell3_subprocess_rebound_witness :
  let s := mkState false (<["subprocess" := VStr (lit "pip")]> ∅)%string ∅ [] [] [] in
  cell3 s = (inl (AttributeError "run"), after_prints s [hdr_installed]).
Proof. apply (cell3_subprocess_rebound (H := h) _ (lit "pip")). reflexivity. Defined.
End TypingWitnesses.

End Typing.
