(* ===== verification/Stream.v ===== *)
(** * What reaches the standard output descriptor

    The runtime records, in program order, the writes of [sys.stdout]
    ([print(x)] is [write(x)] then [write("\n")]) and the bytes the
    [pip install] child writes on the descriptor it inherited.
    CPython's [sys.stdout] is a [TextIOWrapper] that encodes each write
    in UTF-8 (a string with a surrogate raises [UnicodeEncodeError],
    [None] here) and buffers the bytes:
    - [Unbuffered] ([python -u]): every write reaches the descriptor;
    - [LineBuffered] (a terminal): a write containing ['\n'] or ['\r']
      flushes the buffer;
    - [BlockBuffered cap] (a pipe or a file): the bytes accumulate until
      [cap] are pending ([io.DEFAULT_BUFFER_SIZE] is 8192), then the
      whole buffer is written.
    The child writes on the descriptor directly, past the buffer.  The
    interpreter flushes [sys.stdout] at exit, after an uncaught exception
    too.  Nothing in the notebook flushes before [subprocess.check_call]
    (line 11). *)

From Stdlib Require Import String Ascii NArith ZArith.
From stdpp Require Import base list.
From S2P Require Import Prelude PyStr Codec Filter Runtime Cells Notebook.

Module Stream.
Import Split Lower Utf8 Newlines Filter Runtime Cells Notebook.

Inductive buffering := Unbuffered | LineBuffered | BlockBuffered (cap : nat).

(** [io.DEFAULT_BUFFER_SIZE], 8192. *)
Definition DEFAULT_BUFFER_SIZE : nat := 2 ^ 13.

(** The bytes waiting in [sys.stdout]'s buffer, and the bytes the
    descriptor received. *)
Record stream := mkStream { pending : pybytes; fd : pybytes }.

Definition flush (st : stream) : stream := mkStream [] (fd st ++ pending st).

Definition has_line_end (t : pystr) : bool := existsb (fun c => (c =? NL)%N || (c =? 13)%N) t.

(** [sys.stdout.write(t)]. *)
Definition write (b : buffering) (t : pystr) (st : stream) : option stream :=
  data ← encode t;
  let st' := mkStream (pending st ++ data) (fd st) in
  Some match b with
  | Unbuffered => flush st'
  | LineBuffered => if has_line_end t then flush st' else st'
  | BlockBuffered cap => if cap <=? length (pending st') then flush st' else st'
  end.

Definition step (b : buffering) (st : stream) (ev : io_event) : option stream :=
  match ev with
  | IoWrite t => write b t st
  | IoChild data => Some (mkStream (pending st) (fd st ++ data))
  end.

Fixpoint run_io (b : buffering) (evs : list io_event) (st : stream) : option stream :=
  match evs with
  | [] => Some st
  | ev :: evs => st' ← step b st ev; run_io b evs st'
  end.

(** The descriptor's bytes once the interpreter has exited. *)
Definition at_exit (b : buffering) (evs : list io_event) : option pybytes :=
  (fun st => fd (flush st)) <$> run_io b evs (mkStream [] []).

(** ** Replaying prints and children *)

Lemma run_io_app b e1 e2 st :
  run_io b (e1 ++ e2) st = st' ← run_io b e1 st; run_io b e2 st'.
Proof.
  revert st. induction e1 as [|ev e1 IH]; intros st; [done|]. simpl.
  destruct (step b st ev); simpl; [apply IH|done].
Qed.

Lemma print_events_cons x lines :
  print_events (x :: lines) = [IoWrite x; IoWrite [NL]] ++ print_events lines.
Proof. done. Qed.

Lemma encode_printed_cons x lines bs :
  encode (printed (x :: lines)) = Some bs ->
  exists bx br, encode x = Some bx /\ encode (printed lines) = Some br /\
    bs = bx ++ [NL] ++ br.
Proof.
  unfold printed. cbn [map concat]. rewrite <- app_assoc.
  intros (bx & r & Hx & Hr & ->)%encode_app_Some.
  apply (encode_app_Some [NL]) in Hr as (bn & br & Hn & Hr & ->).
  injection Hn as <-. eauto.
Qed.

(** With an empty buffer, printing under line buffering (or none) sends
    each line at once: the buffer is empty again after every [print]. *)
Lemma run_io_prints_flushed b lines f bs :
  b = Unbuffered \/ b = LineBuffered ->
  encode (printed lines) = Some bs ->
  run_io b (print_events lines) (mkStream [] f) = Some (mkStream [] (f ++ bs)).
Proof.
  intros Hb. revert f bs. induction lines as [|x lines IH]; intros f bs He.
  - injection He as <-. simpl. by rewrite app_nil_r.
  - apply encode_printed_cons in He as (bx & br & Hx & Hr & ->).
    rewrite print_events_cons, run_io_app.
    assert (E : run_io b [IoWrite x; IoWrite [NL]] (mkStream [] f) =
                Some (mkStream [] (f ++ bx ++ [NL]))).
    { destruct Hb as [->| ->]; cbn [run_io step]; unfold write; rewrite Hx; simpl;
        [|destruct (has_line_end x)]; cbv [flush]; simpl;
        by rewrite ?app_nil_l, ?app_nil_r, <- ?app_assoc. }
    rewrite E. simpl. rewrite (IH _ br Hr). by rewrite <- !app_assoc.
Qed.

(** Under block buffering, prints that fit in the buffer stay in it. *)
Lemma run_io_prints_pending cap lines p f bs :
  encode (printed lines) = Some bs -> length (p ++ bs) < cap ->
  run_io (BlockBuffered cap) (print_events lines) (mkStream p f) = Some (mkStream (p ++ bs) f).
Proof.
  revert p bs. induction lines as [|x lines IH]; intros p bs He Hlen.
  - injection He as <-. simpl. by rewrite app_nil_r.
  - apply encode_printed_cons in He as (bx & br & Hx & Hr & ->).
    rewrite !length_app in Hlen. simpl in Hlen.
    rewrite print_events_cons, run_io_app. cbn [run_io step]. unfold write. rewrite Hx. simpl.
    destruct (Nat.leb_spec cap (length (p ++ bx))) as [Hc|_];
      [rewrite length_app in Hc; lia|]. simpl.
    destruct (Nat.leb_spec cap (length ((p ++ bx) ++ [NL]))) as [Hc|_];
      [rewrite !length_app in Hc; simpl in Hc; lia|]. simpl.
    rewrite (IH _ br Hr).
    + by rewrite <- !app_assoc.
    + rewrite !length_app. simpl. lia.
Qed.

(** A log of prints, one child, then prints. *)
Lemma run_io_around_child_flushed b l1 o l2 b1 b2 :
  b = Unbuffered \/ b = LineBuffered ->
  encode (printed l1) = Some b1 -> encode (printed l2) = Some b2 ->
  at_exit b (print_events l1 ++ IoChild o :: print_events l2) = Some (b1 ++ o ++ b2).
Proof.
  intros Hb H1 H2. unfold at_exit. rewrite run_io_app, (run_io_prints_flushed _ _ _ b1) by done.
  simpl. rewrite (run_io_prints_flushed _ _ _ b2) by done. simpl.
  by rewrite app_nil_r, <- app_assoc.
Qed.

Lemma run_io_around_child_pending cap l1 o l2 bs :
  encode (printed (l1 ++ l2)) = Some bs -> length bs < cap ->
  at_exit (BlockBuffered cap) (print_events l1 ++ IoChild o :: print_events l2) =
  Some (o ++ bs).
Proof.
  rewrite printed_app. intros (b1 & b2 & H1 & H2 & ->)%encode_app_Some Hlen.
  rewrite length_app in Hlen. unfold at_exit.
  rewrite run_io_app, (run_io_prints_pending _ _ _ _ b1) by (done || simpl; lia). simpl.
  rewrite (run_io_prints_pending _ _ _ _ b2) by (done || rewrite length_app; lia). simpl.
  done.
Qed.

(** ** What the notebook prints can be encoded *)

(** A closed string (or list of strings) of the source, by computation. *)
Ltac closed_encodable := apply (bool_decide_unpack _); vm_compute; reflexivity.

Lemma encodable_printed lines : Forall encodable lines -> encodable (printed lines).
Proof.
  induction 1 as [|x lines Hx _ IH]; [constructor|].
  unfold printed. cbn [map concat]. apply encodable_app. split; [|done].
  apply encodable_app. split; [done|]. repeat constructor.
Qed.

Lemma encodable_join_pieces sep ps : encodable (join sep ps) -> Forall encodable ps.
Proof.
  induction ps as [|p [|q qs] IH]; intros Hj; [constructor|by repeat constructor|].
  rewrite join_cons_cons in Hj. apply encodable_app in Hj as [Hp Hj].
  apply encodable_app in Hj as [_ Hj]. constructor; auto.
Qed.

Lemma encodable_lit s : encodable (lit s).
Proof.
  unfold encodable, lit. rewrite List.Forall_map. apply List.Forall_forall.
  intros a _. unfold is_surrogate. pose proof (N_ascii_bounded a).
  destruct (N.leb_spec 0xD800 (N_of_ascii a)); [lia|done].
Qed.

Section WithHost.
Context `{H : Host} `{CM : CaseMapping}.

(** The lines a completed run prints. *)
Definition run_lines (v listing : pystr) : list pystr :=
  [msg_installing; msg_installed; version_line v; hdr_installed] ++
  map bullet_line (dbt_lines listing) ++ Reporter.static_lines.

Lemma encodable_dbt_lines listing : encodable listing -> Forall encodable (dbt_lines listing).
Proof.
  intros Hl. unfold dbt_lines. apply Forall_List_filter, (encodable_join_pieces [NL]).
  by rewrite join_split_char.
Qed.

Lemma encodable_run_lines v listing :
  encodable v -> encodable listing -> encodable (printed (run_lines v listing)).
Proof.
  intros Hv Hl. apply encodable_printed. unfold run_lines. apply Forall_app. split.
  { apply List.Forall_cons; [closed_encodable|].
    apply List.Forall_cons; [closed_encodable|].
    apply List.Forall_cons; [apply encodable_app; split; [closed_encodable|done]|].
    apply List.Forall_cons; [closed_encodable|constructor]. }
  apply Forall_app. split.
  - apply Forall_map. eapply List.Forall_impl; [|by apply encodable_dbt_lines].
    intros x Hx. unfold bullet_line. apply encodable_app. split; [apply encodable_lit|].
    constructor; [done|]. apply encodable_app. split; [apply encodable_lit|done].
  - closed_encodable.
Qed.

Lemma run_notebook_io env o e env1 v rc2 out_b err_b listing err env2 :
  spawn (install_argv executable) env = (Exited 0 o e, env1) ->
  find_dbt_version env1 = Some v ->
  spawn (list_argv executable) env1 = (Exited rc2 out_b err_b, env2) ->
  text_decode out_b = Some listing -> text_decode err_b = Some err ->
  st_io (snd (run_notebook (fresh env))) =
  print_events [msg_installing] ++ IoChild o :: print_events (tail (run_lines v listing)).
Proof.
  intros Hsp Hv Hl Hdo Hde.
  destruct (run_completes (fresh env) o e env1 v rc2 out_b err_b listing err env2)
    as (s' & -> & _ & _ & Hio & _); [done..|].
  simpl. by rewrite Hio.
Qed.

Lemma run_halts_at_install_io env rc o e env1 :
  spawn (install_argv executable) env = (Exited rc o e, env1) ->
  rc <> 0%Z ->
  st_io (snd (run_notebook (fresh env))) = print_events [msg_installing] ++ IoChild o :: print_events [].
Proof.
  intros Hsp Hrc.
  destruct (run_halts_at_install (fresh env) rc o e env1) as (s' & -> & _ & _ & Hio); [done..|].
  simpl. by rewrite Hio.
Qed.

Lemma encode_run_lines v listing :
  encodable v -> encodable listing ->
  exists bs, encode (printed (run_lines v listing)) = Some bs.
Proof. intros Hv Hl. by apply encode_Some, encodable_run_lines. Qed.

(** C7: when [sys.stdout] is a terminal (line buffered) or
    unbuffered, a completed run leaves on the descriptor the UTF-8 bytes
    of "Installing dbt-snowflake...", then the bytes [pip install]
    wrote, then the bytes of the other lines: the order of the program.
    The version [import] found must be encodable, as any [str] printed
    on a UTF-8 stream. *)
Theorem notebook_output_line_buffered b env o e env1 v rc2 out_b err_b listing err env2 :
  b = Unbuffered \/ b = LineBuffered ->
  spawn (install_argv executable) env = (Exited 0 o e, env1) ->
  find_dbt_version env1 = Some v -> encodable v ->
  spawn (list_argv executable) env1 = (Exited rc2 out_b err_b, env2) ->
  text_decode out_b = Some listing -> text_decode err_b = Some err ->
  exists b1 b2, encode (printed [msg_installing]) = Some b1 /\
    encode (printed (tail (run_lines v listing))) = Some b2 /\
    at_exit b (st_io (snd (run_notebook (fresh env)))) = Some (b1 ++ o ++ b2).
Proof.
  intros Hb Hsp Hv Hve Hl Hdo Hde.
  destruct (encode_run_lines v listing Hve) as [bs Hbs]; [by eapply text_decode_encodable|].
  change (run_lines v listing) with ([msg_installing] ++ tail (run_lines v listing)) in Hbs.
  rewrite printed_app in Hbs. apply encode_app_Some in Hbs as (b1 & b2 & H1 & H2 & _).
  exists b1, b2. split; [done|]. split; [done|].
  rewrite (run_notebook_io env o e env1 v rc2 out_b err_b listing err env2) by done.
  by apply run_io_around_child_flushed.
Qed.

(** C6: when [sys.stdout] is a pipe or a file (block
    buffered) and the bytes of the run's lines fit in the buffer, the
    [print] of line 10 is not flushed before [check_call] starts pip:
    what pip wrote comes first on the descriptor, before
    "Installing dbt-snowflake...". *)
Theorem notebook_output_block_buffered cap env o e env1 v rc2 out_b err_b listing err env2 :
  spawn (install_argv executable) env = (Exited 0 o e, env1) ->
  find_dbt_version env1 = Some v -> encodable v ->
  spawn (list_argv executable) env1 = (Exited rc2 out_b err_b, env2) ->
  text_decode out_b = Some listing -> text_decode err_b = Some err ->
  exists bs, encode (printed (run_lines v listing)) = Some bs /\
    (length bs < cap ->
     at_exit (BlockBuffered cap) (st_io (snd (run_notebook (fresh env)))) = Some (o ++ bs)).
Proof.
  intros Hsp Hv Hve Hl Hdo Hde.
  destruct (encode_run_lines v listing Hve) as [bs Hbs]; [by eapply text_decode_encodable|].
  exists bs. split; [done|]. intros Hlen.
  rewrite (run_notebook_io env o e env1 v rc2 out_b err_b listing err env2) by done.
  by apply (run_io_around_child_pending cap [msg_installing] o (tail (run_lines v listing))).
Qed.

(** C8: when [pip install] fails and [sys.stdout] is
    block buffered, pip's output is followed by "Installing
    dbt-snowflake...", which the interpreter flushes at exit only. *)
Theorem install_failure_output_block_buffered cap env rc o e env1 :
  spawn (install_argv executable) env = (Exited rc o e, env1) ->
  rc <> 0%Z ->
  length (printed [msg_installing]) < cap ->
  at_exit (BlockBuffered cap) (st_io (snd (run_notebook (fresh env)))) =
  Some (o ++ printed [msg_installing]).
Proof.
  intros Hsp Hrc Hlen. rewrite (run_halts_at_install_io env rc o e env1) by done.
  apply (run_io_around_child_pending cap [msg_installing] o []); [|done].
  apply encode_ascii. closed_encodable.
Qed.

End WithHost.

(** ** Witnesses on the demo host *)

Module StreamWitnesses.
#[local] Existing Instance ascii_case_mapping.

Module Run.
#[local] Instance h : Host := Demo.host 0 true true.

(** Witness of [notebook_output_line_buffered]. *)
Lemma notebook_output_line_buffered_witness :
  exists b1 b2, encode (printed [msg_installing]) = Some b1 /\
    encode (printed (tail (run_lines (lit "1.7.1") Demo.listing))) = Some b2 /\
    at_exit LineBuffered (st_io (snd (run_notebook (@fresh h false)))) =
    Some (b1 ++ Demo.pip_output ++ b2).
Proof.
  apply (notebook_output_line_buffered (H:=h) LineBuffered false Demo.pip_output [] true
           (lit "1.7.1") 0 Demo.listing [] Demo.listing [] true);
    [right; reflexivity|reflexivity|reflexivity|closed_encodable|reflexivity..].
Defined.

(** Witness of [notebook_output_block_buffered] with CPython's buffer size. *)
Lemma notebook_output_block_buffered_witness :
  exists bs, encode (printed (run_lines (lit "1.7.1") Demo.listing)) = Some bs /\
    length bs < DEFAULT_BUFFER_SIZE /\
    at_exit (BlockBuffered DEFAULT_BUFFER_SIZE) (st_io (snd (run_notebook (@fresh h false)))) =
    Some (Demo.pip_output ++ bs).
Proof.
  destruct (notebook_output_block_buffered (H:=h) DEFAULT_BUFFER_SIZE false Demo.pip_output [] true
              (lit "1.7.1") 0 Demo.listing [] Demo.listing [] true) as (bs & Hbs & Hat);
    [reflexivity|reflexivity|closed_encodable|reflexivity..|].
  assert (Hlen : length bs < DEFAULT_BUFFER_SIZE)
    by (revert Hbs; vm_compute; intros [= <-]; vm_compute; lia).
  exists bs. split; [done|]. split; [done|]. by apply Hat.
Defined.
End Run.

Module InstallFails.
#[local] Instance h : Host := Demo.host 1 true true.

(** Witness of [install_failure_output_block_buffered]. *)
Lemma install_failure_output_block_buffered_witness :
  at_exit (BlockBuffered DEFAULT_BUFFER_SIZE) (st_io (snd (run_notebook (@fresh h false)))) =
  Some (Demo.pip_output ++ printed [msg_installing]).
Proof.
  apply (install_failure_output_block_buffered (H:=h) DEFAULT_BUFFER_SIZE false 1 Demo.pip_output [] false);
    [reflexivity|lia|vm_compute; lia].
Defined.
End InstallFails.
End StreamWitnesses.

End Stream.
