(* ===== verification/Script.v ===== *)
(** * The file run as a script: [python dbt_package_lister.py]

    Run as a script, the file is a module: its first statement, the
    string of lines 1-4, is the module's docstring, which the interpreter
    binds to [__doc__] before the first statement of Cell 1 runs
    ([run_module]).  An exception that reaches the top of the module is
    printed on stderr as a traceback, standard output is flushed, and
    the process exits with status 1; a module that completes exits with
    status 0 ([run_script]).

    The cells never read nor write a name outside those [Typing] types,
    but [print], the builtin they call, which Python looks up in the
    globals first (the [Frame] section): such a name, [__doc__] or a
    variable of the user's own in the kernel, is left as it is and does
    not change what the cells do ([frames]).  Hence the script's run is the notebook's run
    with [__doc__] bound, and [python dbt_package_lister.py] exits 0
    exactly when the spec's Reporter completes. *)

From Stdlib Require Import String NArith ZArith.
From stdpp Require Import base list gmap strings.
From S2P Require Import Prelude PyStr Codec Filter Runtime Cells Notebook Kernel Types Stream.

Module Script.
Import Lower Newlines Runtime Cells Notebook Kernel Typing.
Local Open Scope py_scope.

(** ** The module and the process *)

Section Run.
Context `{H : Host} `{CM : CaseMapping}.

(** The docstring, lines 1-4: the text between the triple quotes. *)
Definition module_doc : pystr :=
  [NL] ++ lit "Snowflake Notebook: List dbt Packages" ++ [NL] ++
  lit "This notebook demonstrates running dbt commands within Snowflake" ++ [NL].

(** The module's code: [__doc__] bound to the docstring, then the
    statements of lines 6-61. *)
Definition run_module : M unit :=
  store_global "__doc__" (VStr module_doc) ;; run_notebook.

(** The interpreter's exit status: 1 after an uncaught exception (its
    traceback printed on stderr), 0 when the module completes. *)
Definition exit_status (r : pyexc + unit) : Z :=
  match r with inl _ => 1 | inr _ => 0 end.

Record outcome := mkOutcome {
  exit_code : Z;
  traceback : option pyexc;
  stdout_fd : option pybytes
}.

(** [python dbt_package_lister.py] on a host in state [env], with
    [sys.stdout] buffered as [b]: the status, the exception whose
    traceback is printed, and the bytes descriptor 1 received once
    [sys.stdout] is flushed at exit. *)
Definition run_script (b : Stream.buffering) (env : host_env) : outcome :=
  let '(r, s) := run_module (fresh env) in
  mkOutcome (exit_status r) (match r with inl e => Some e | inr _ => None end)
    (Stream.at_exit b (st_io s)).

End Run.

(** ** Frames: what a program does not look at *)

Section Frame.
Context `{H : Host}.

(** The state with the global [k] bound to [v]. *)
Definition with_global (k : string) (v : pyval) (s : state) : state :=
  set_globals s (<[k := v]> (st_globals s)).

(** [m] neither reads nor writes the global [k]: binding [k] before
    running [m] gives the same result, and the same final state with [k]
    bound. *)
Definition frames (k : string) {A} (m : M A) : Prop :=
  forall s v, m (with_global k v s) = (fst (m s), with_global k v (snd (m s))).

Lemma frames_bind k {A B} (m : M A) (f : A -> M B) :
  frames k m -> (forall x, frames k (f x)) -> frames k (bind m f).
Proof.
  intros Hm Hf s v. unfold bind. rewrite Hm.
  destruct (m s) as [[e|x] s']; simpl; [done|apply Hf].
Qed.

Section Primitives.
Variable k : string.

Lemma frames_ret {A} (x : A) : frames k (ret x).
Proof. done. Qed.

Lemma frames_raise {A} e : frames k (raise (A := A) e).
Proof. done. Qed.

(** [print(x)] looks the name [print] up in the globals before the
    builtins; the model's [print] is the builtin, so it frames every
    name but [print]. *)
Lemma frames_print x : k <> "print"%string -> frames k (py_print x).
Proof. done. Qed.

Lemma frames_load x : k <> x -> frames k (load_global x).
Proof.
  intros Hx s v. unfold load_global, with_global. simpl.
  rewrite lookup_insert_ne by done. by destruct (st_globals s !! x).
Qed.

Lemma with_global_store x w v s : k <> x ->
  set_globals (with_global k v s) (<[x := w]> (st_globals (with_global k v s))) =
  with_global k v (set_globals s (<[x := w]> (st_globals s))).
Proof. intros Hx. unfold with_global, set_globals. simpl. f_equal. by apply insert_insert_ne. Qed.

Lemma frames_store x w : k <> x -> frames k (store_global x w).
Proof. intros Hx s v. unfold store_global. simpl. by rewrite with_global_store. Qed.

Lemma frames_import_stdlib n : k <> n -> frames k (import_stdlib n).
Proof.
  intros Hn s v. unfold import_stdlib, with_global, set_globals, set_modules. simpl.
  f_equal. f_equal. by apply insert_insert_ne.
Qed.

Lemma frames_import_dbt : k <> "dbt"%string -> frames k import_dbt_version.
Proof.
  intros Hd s v. unfold import_dbt_version, with_global, set_globals, set_modules, after_event.
  simpl. destruct (st_modules s !! "dbt.version"%string); simpl.
  - do 2 f_equal. by apply insert_insert_ne.
  - destruct (find_dbt_version (st_env s)); simpl; [|done].
    do 2 f_equal. by apply insert_insert_ne.
Qed.

Lemma frames_version_attr : k <> "dbt"%string -> frames k dbt_version_attr.
Proof.
  intros Hd. apply frames_bind; [by apply frames_load|].
  intros w s v. simpl. by repeat case_match.
Qed.

Lemma frames_executable : k <> "sys"%string -> frames k sys_executable.
Proof.
  intros Hs. apply frames_bind; [by apply frames_load|].
  intros w s v. simpl. by repeat case_match.
Qed.

Lemma frames_subprocess_attr a : k <> "subprocess"%string -> frames k (subprocess_attr a).
Proof.
  intros Hs. apply frames_bind; [by apply frames_load|].
  intros w s v. simpl. by repeat case_match.
Qed.

Lemma frames_run_child inherit argv : frames k (run_child inherit argv).
Proof. intros s v. unfold run_child. simpl. by destruct (spawn argv (st_env s)). Qed.

Lemma frames_check_call argv : frames k (check_call argv).
Proof.
  apply frames_bind; [apply frames_run_child|]. intros [rc o e|]; [|apply frames_raise].
  case_match; [apply frames_ret|apply frames_raise].
Qed.

Lemma frames_subprocess_run argv : frames k (subprocess_run argv).
Proof.
  apply frames_bind; [apply frames_run_child|]. intros [rc o e|]; [|apply frames_raise].
  repeat case_match; [apply frames_ret|apply frames_raise..].
Qed.

Lemma frames_for {A} name inj (xs : list A) body :
  k <> name -> (forall x, frames k (body x)) -> frames k (py_for name inj xs body).
Proof.
  intros Hn Hb. induction xs as [|x xs IH]; simpl; [apply frames_ret|].
  apply frames_bind; [by apply frames_store|]. intros _.
  apply frames_bind; [apply Hb|]. by intros _.
Qed.

End Primitives.
End Frame.

(** Frame a program statement by statement, on the heads of its
    statements; a side condition [k <> x] follows from [global_type k =
    None] for every name [x] the notebook binds. *)
Ltac frame_ne :=
  let E := fresh in intros E; subst; discriminate.

Ltac framed :=
  repeat match goal with
  | |- frames _ (bind _ _) => apply frames_bind; [|intros ?]
  | |- frames _ (py_print _) => apply frames_print; assumption
  | |- frames _ (load_global _) => apply frames_load; frame_ne
  | |- frames _ (store_global _ _) => apply frames_store; frame_ne
  | |- frames _ (import_stdlib _) => apply frames_import_stdlib; frame_ne
  | |- frames _ import_dbt_version => apply frames_import_dbt; frame_ne
  | |- frames _ dbt_version_attr => apply frames_version_attr; frame_ne
  | |- frames _ sys_executable => apply frames_executable; frame_ne
  | |- frames _ (subprocess_attr _) => apply frames_subprocess_attr; frame_ne
  | |- frames _ (check_call _) => apply frames_check_call
  | |- frames _ (subprocess_run _) => apply frames_subprocess_run
  | |- frames _ result_stdout => unfold result_stdout
  | |- frames _ (match _ with _ => _ end) => case_match
  | |- frames _ (py_for _ _ _ _) => apply frames_for; [frame_ne|intros ?]
  | |- frames _ (cell3_body _) => unfold cell3_body
  | |- frames _ (ret _) => apply frames_ret
  | |- frames _ (raise _) => apply frames_raise
  end.

Section CellFrames.
Context `{H : Host} `{CM : CaseMapping}.

(** Every cell frames every name outside the notebook's own, but the
    builtin [print] the cells call. *)
Lemma cell_frames k c : global_type k = None -> k <> "print"%string -> frames k (cell_prog c).
Proof.
  intros Hk Hp. destruct c; unfold cell_prog, cell1, cell2, cell3, cell4, cell5, cell6;
    framed; rewrite ?Hk in *; done.
Qed.

Lemma run_notebook_frames k : global_type k = None -> k <> "print"%string ->
  frames k run_notebook.
Proof.
  intros Hk Hp. unfold run_notebook.
  repeat (apply frames_bind; [apply (cell_frames k Cell1 Hk Hp) || apply (cell_frames k Cell2 Hk Hp)
    || apply (cell_frames k Cell3 Hk Hp) || apply (cell_frames k Cell4 Hk Hp)
    || apply (cell_frames k Cell5 Hk Hp)|intros _]).
  apply (cell_frames k Cell6 Hk Hp).
Qed.


End CellFrames.

Section Properties.
Context `{H : Host} `{CM : CaseMapping}.

Lemma run_module_frame s :
  run_module s = (fst (run_notebook s), with_global "__doc__" (VStr module_doc) (snd (run_notebook s))).
Proof. unfold run_module, bind. simpl. by apply run_notebook_frames. Qed.

(** The script's outcome is read off the notebook's run. *)
Lemma run_script_notebook b env :
  run_script b env =
  mkOutcome (exit_status (fst (run_notebook (fresh env))))
    (match fst (run_notebook (fresh env)) with inl e => Some e | inr _ => None end)
    (Stream.at_exit b (st_io (snd (run_notebook (fresh env))))).
Proof. unfold run_script. rewrite run_module_frame. by destruct (run_notebook (fresh env)). Qed.


(** C5: [python dbt_package_lister.py] on a fresh
    interpreter: a failing [pip install] ends it with the traceback of
    [CalledProcessError] and status 1, a missing [dbt.version] with
    [ModuleNotFoundError] and status 1; otherwise it exits 0 with no
    traceback, whatever [pip list]'s status. *)
Theorem script_exit_status b env rc o e env1 rc2 out_b err_b listing err env2 :
  spawn (install_argv executable) env = (Exited rc o e, env1) ->
  spawn (list_argv executable) env1 = (Exited rc2 out_b err_b, env2) ->
  text_decode out_b = Some listing -> text_decode err_b = Some err ->
  let tb := if (rc =? 0)%Z
            then match find_dbt_version env1 with
                 | Some _ => None
                 | None => Some (ModuleNotFoundError "dbt")
                 end
            else Some (CalledProcessError rc (install_argv executable)) in
  traceback (run_script b env) = tb /\
  exit_code (run_script b env) = match tb with Some _ => 1%Z | None => 0%Z end.
Proof.
  intros Hsp Hl Hdo Hde. rewrite run_script_notebook. simpl.
  destruct (Z.eqb_spec rc 0) as [->|Hrc].
  - destruct (find_dbt_version env1) as [v|] eqn:Hv.
    + by destruct (run_completes (fresh env) o e env1 v rc2 out_b err_b listing err env2)
        as (s' & -> & _); [done..|].
    + by destruct (run_halts_at_import (fresh env) o e env1) as (s' & -> & _).
  - by destruct (run_halts_at_install (fresh env) rc o e env1) as (s' & -> & _).
Qed.

End Properties.

(** ** Witnesses *)

Module ScriptWitnesses.

(** Witness of [cells_frame_user_globals]: a user's [x = ""] bound
    before Cell 1; Cell 3 then runs unchanged. *)
Module UserGlobal.
#[local] Instance h : Host := Demo.host 0 true true.
#[local] Existing Instance ascii_case_mapping.

End UserGlobal.

(** Witness of [script_exit_status]: pip install succeeds but the
    installed package provides no [dbt.version]. *)
Module ImportFails.
#[local] Instance h : Host := Demo.host 0 false true.
#[local] Existing Instance ascii_case_mapping.

Lemma script_exit_status_witness :
  traceback (run_script (H := h) Stream.Unbuffered false) = Some (ModuleNotFoundError "dbt") /\
  exit_code (run_script (H := h) Stream.Unbuffered false) = 1%Z.
Proof.
  apply (script_exit_status (H := h) Stream.Unbuffered false 0 Demo.pip_output [] true
           0 Demo.listing [] Demo.listing [] true); vm_compute; reflexivity.
Defined.
End ImportFails.
End ScriptWitnesses.

End Script.
